(** * theano/tensor/io.py: disk loading and MPI transfer operations

    A shallow embedding of the five [Op] classes of [theano/tensor/io.py]
    ([LoadFromDisk], [MPIRecv], [MPIRecvWait], [MPISend], [MPISendWait])
    together with the small amount of Python, numpy and MPI behaviour their
    methods rely on, followed by the properties of the operation contracts. *)

From Stdlib Require Import ZArith String Ascii List Bool Lia.
From stdpp Require Import base option list strings gmap pretty.
Import ListNotations.

Local Open Scope string_scope.
Local Open Scope Z_scope.

(* ===================================================================== *)
(** ** Python outcomes *)
(* ===================================================================== *)

(** The exception classes that the modelled code can raise. [MPIException]
    stands for [mpi4py.MPI.Exception]. *)
Inductive exn :=
| ValueError | TypeError | NameError | IndexError | AttributeError
| IOError | MemoryError | MPIException.

(** Result of a pure call: a value or a raised exception. *)
Inductive result (A : Type) :=
| Ok (a : A)
| Raise (e : exn).
Arguments Ok {A} a.
Arguments Raise {A} e.

(* ===================================================================== *)
(** ** numpy: element types and arrays *)
(* ===================================================================== *)

(** Canonical numpy element types ([numpy.dtype] objects). *)
Inductive np_dtype :=
| bool_ | int8 | int16 | int32 | int64
| uint8 | uint16 | uint32 | uint64
| float16 | float32 | float64
| complex64 | complex128.

#[global] Instance np_dtype_eq_dec : EqDecision np_dtype.
Proof. solve_decision. Defined.

(** [numpy.dtype(name)] on a string identifier: the canonical names, the
    size-coded aliases and the C-style names of the table name the same
    element type. [None] stands for the [TypeError] ("data type not
    understood") raised on a string that names no element type. The table
    holds platform-independent identifiers of the fourteen element types
    above; what else [numpy.dtype] accepts (byte-order prefixes, names whose
    width depends on the platform such as ['int'], string, void and
    structured types) is not modelled, and the properties below are stated
    for identifiers that the table resolves. *)
Definition numpy_dtype (name : string) : option np_dtype :=
  if String.eqb name "bool" then Some bool_
  else if String.eqb name "b1" then Some bool_
  else if String.eqb name "int8" then Some int8
  else if String.eqb name "i1" then Some int8
  else if String.eqb name "int16" then Some int16
  else if String.eqb name "i2" then Some int16
  else if String.eqb name "int32" then Some int32
  else if String.eqb name "i4" then Some int32
  else if String.eqb name "int64" then Some int64
  else if String.eqb name "i8" then Some int64
  else if String.eqb name "uint8" then Some uint8
  else if String.eqb name "u1" then Some uint8
  else if String.eqb name "uint16" then Some uint16
  else if String.eqb name "u2" then Some uint16
  else if String.eqb name "uint32" then Some uint32
  else if String.eqb name "u4" then Some uint32
  else if String.eqb name "uint64" then Some uint64
  else if String.eqb name "u8" then Some uint64
  else if String.eqb name "float16" then Some float16
  else if String.eqb name "f2" then Some float16
  else if String.eqb name "float32" then Some float32
  else if String.eqb name "f4" then Some float32
  else if String.eqb name "float64" then Some float64
  else if String.eqb name "f8" then Some float64
  else if String.eqb name "complex64" then Some complex64
  else if String.eqb name "c8" then Some complex64
  else if String.eqb name "complex128" then Some complex128
  else if String.eqb name "c16" then Some complex128
  else if String.eqb name "half" then Some float16
  else if String.eqb name "single" then Some float32
  else if String.eqb name "double" then Some float64
  else if String.eqb name "float" then Some float64
  else if String.eqb name "complex" then Some complex128
  else None.

(** A dense array: element type, extents, and the elements in row-major
    order. *)
Record ndarray := {
  arr_dtype : np_dtype;
  arr_shape : list Z;
  arr_data : list Z
}.

(** Number of elements of an array of the given extents. *)
Definition shape_size (shape : list Z) : Z := fold_right Z.mul 1 shape.

(** Size in bytes of one element. *)
Definition itemsize (d : np_dtype) : Z :=
  match d with
  | bool_ | int8 | uint8 => 1
  | int16 | uint16 | float16 => 2
  | int32 | uint32 | float32 => 4
  | int64 | uint64 | float64 | complex64 => 8
  | complex128 => 16
  end.

(** What [numpy.empty] depends on besides its arguments: the limits of the
    numpy build (the largest number of dimensions, the largest value of the
    index type), which byte counts the machine can provide, and what the
    memory handed out happens to hold. *)
Record platform := {
  maxdims : nat;
  intp_max : Z;
  available : Z -> bool;
  uninitialised : nat -> Z
}.

(** A 64-bit machine with numpy's limit of 32 dimensions, 4 GiB to hand
    out, and some leftover values in its memory. *)
Definition workstation : platform :=
  {| maxdims := 32;
     intp_max := 2 ^ 63 - 1;
     available := fun n => n <=? 2 ^ 32;
     uninitialised := fun i => Z.of_nat i + 40 |}.

(** The byte count that numpy checks against the index type: the element
    size times the extents, an extent of 0 being skipped. *)
Definition checked_nbytes (shape : list Z) (d : np_dtype) : Z :=
  fold_right (fun n acc => if n =? 0 then acc else n * acc) (itemsize d) shape.

(* ===================================================================== *)
(** ** Python values, storage and the per-process state *)
(* ===================================================================== *)

(** A non-blocking request token of the transport layer. A receive request
    remembers the channel (source, destination, tag) and the address of the
    buffer registered with it. *)
Inductive request :=
| SendRequest
| RecvRequest (source dest tag : Z) (buf : nat).

(** The run-time values that flow through storage cells and attributes.
    Arrays are mutable objects: a value refers to one by its heap address. *)
#[warning="-register-all"]
Inductive value :=
| VNone
| VBool (b : bool)
| VInt (z : Z)
| VStr (s : string)
| VDtype (d : np_dtype)
| VTuple (l : list value)
| VFunction (qualname : string)
| VArr (addr : nat)
| VNpz
| VReq (r : request).

(** A message posted to the transport layer and not yet received. *)
Record message := {
  msg_src : Z;
  msg_dst : Z;
  msg_tag : Z;
  msg_data : list Z
}.

(** What a compute step can read and write: the arrays of its process, the
    messages in flight, and the output storage [out] it was handed. *)
Record pstate := {
  heap : list ndarray;
  wire : list message;
  out : list (list value)
}.

(** A compute step either returns, raises, or cannot proceed yet (a blocking
    wait whose message has not been posted). *)
Inductive outcome (A : Type) :=
| Return (a : A)
| Throw (e : exn)
| Blocked.
Arguments Return {A} a.
Arguments Throw {A} e.
Arguments Blocked {A}.

(** State-and-exception monad of compute steps. Writes made before an
    exception is raised stay in the state, as in Python. *)
Definition M (A : Type) : Type := pstate -> outcome A * pstate.

Definition ret {A} (a : A) : M A := fun s => (Return a, s).
Definition raise {A} (e : exn) : M A := fun s => (Throw e, s).
Definition block {A} : M A := fun s => (Blocked, s).
Definition bind {A B} (c : M A) (k : A -> M B) : M B :=
  fun s =>
    match c s with
    | (Return a, s') => k a s'
    | (Throw e, s') => (Throw e, s')
    | (Blocked, s') => (Blocked, s')
    end.

Notation "x <- c ;; k" := (bind c (fun x => k))
  (at level 100, c at next level, right associativity).
Notation "c ;;; k" := (bind c (fun _ => k))
  (at level 100, right associativity).

(** [seq[i]] for a list and a non-negative index. *)
Definition getitem {A} (seq : list A) (i : nat) : M A :=
  match seq !! i with
  | Some x => ret x
  | None => raise IndexError
  end.

(** [out[i][j] = v]: both subscripts must be in range. *)
Definition setitem_out (i j : nat) (v : value) : M unit :=
  fun s =>
    match out s !! i with
    | None => (Throw IndexError, s)
    | Some cell =>
        if decide (j < length cell)%nat
        then (Return tt,
              {| heap := heap s; wire := wire s;
                 out := <[i := <[j := v]> cell]> (out s) |})
        else (Throw IndexError, s)
    end.

(** Allocation of a fresh array object; its address is returned. *)
Definition alloc (a : ndarray) : M nat :=
  fun s =>
    (Return (length (heap s)),
     {| heap := (heap s ++ [a])%list; wire := wire s; out := out s |}).

(** [v.dtype]: only arrays have the attribute. *)
Definition attr_dtype (v : value) : M np_dtype :=
  fun s =>
    match v with
    | VArr a =>
        match heap s !! a with
        | Some arr => (Return (arr_dtype arr), s)
        | None => (Throw AttributeError, s)
        end
    | _ => (Throw AttributeError, s)
    end.

(** [numpy.empty(shape, dtype=dtype)] for a tuple of integer extents: a
    fresh array of the given extents. A negative extent, more dimensions
    than the build supports, and an extent or a byte count beyond the index
    type are rejected with [ValueError]; when the machine cannot provide the
    memory, [MemoryError] is raised. The elements of the new array are not
    initialised: they are whatever the memory holds. *)
Definition numpy_empty (pl : platform) (shape : list Z) (dtype : np_dtype)
  : M value :=
  if forallb (fun n => 0 <=? n) shape
  then
    if negb (length shape <=? maxdims pl)%nat then raise ValueError
    else if negb (forallb (fun n => n <=? intp_max pl) shape)
    then raise ValueError
    else if intp_max pl <? checked_nbytes shape dtype then raise ValueError
    else if negb (available pl (itemsize dtype * shape_size shape))
    then raise MemoryError
    else
      a <- alloc {| arr_dtype := dtype; arr_shape := shape;
                    arr_data :=
                      map (uninitialised pl)
                          (seq 0 (Z.to_nat (shape_size shape))) |} ;;
      ret (VArr a)
  else raise ValueError.

(** ** Files *)

(** Content of a file as [numpy.load] sees it: a single array, a
    multi-array archive, or something it cannot read as either, [e] being
    the exception it then raises. *)
Inductive file :=
| NpyFile (a : ndarray)
| NpzFile
| BadFile (e : exn).

(** [numpy.load(path, mmap_mode=mmap_mode)]: a missing file raises
    [IOError]; a single-array file gives an array object (copied, or mapped
    copy-on-write) with the stored element type, extents and elements; an
    archive gives an archive object; on an unreadable file the exception of
    the reader is raised. *)
Definition numpy_load (fs : string -> option file) (path : string)
    (mmap_mode : option string) : M value :=
  match fs path with
  | None => raise IOError
  | Some (NpyFile a) => addr <- alloc a ;; ret (VArr addr)
  | Some NpzFile => ret VNpz
  | Some (BadFile e) => raise e
  end.

(** ** Strings *)

(** [s.split(sep)] for a one-character separator. *)
Fixpoint split (sep : ascii) (s : string) : list string :=
  match s with
  | EmptyString => [EmptyString]
  | String c s' =>
      if Ascii.eqb c sep then EmptyString :: split sep s'
      else match split sep s' with
           | [] => [String c EmptyString]
           | w :: ws => String c w :: ws
           end
  end.

(** [seq[-1]]. *)
Definition getitem_last {A} (seq : list A) : M A :=
  match last seq with
  | Some x => ret x
  | None => raise IndexError
  end.

(** The test [path.split('.')[-1] == 'npz'] of [LoadFromDisk.perform]. *)
Definition has_npz_extension (path : string) : Prop :=
  last (split "." path) = Some "npz".

(* ===================================================================== *)
(** ** Graph nodes *)
(* ===================================================================== *)

(** Types of graph variables: the opaque [Generic] type and tensor types. *)
Inductive var_type :=
| Generic
| TensorType (dtype : np_dtype) (broadcastable : list bool).

(** Graph variables: [Constant(type, data)] or a fresh symbolic variable of
    the given type. *)
Inductive variable :=
| Constant (ty : var_type) (data : value)
| Variable_ (ty : var_type).

Definition type_of_variable (v : variable) : var_type :=
  match v with
  | Constant ty _ => ty
  | Variable_ ty => ty
  end.

(** [gof.Apply(op, inputs, outputs)]. *)
Record Apply (O : Type) := {
  apply_op : O;
  apply_inputs : list variable;
  apply_outputs : list variable
}.
Arguments apply_op {O} _.
Arguments apply_inputs {O} _.
Arguments apply_outputs {O} _.

(** Modelled from the spec: [basic.tensor] is not under src/. Per the
    graph-construction interface, [tensor(dtype, broadcastable=b)] is a
    fresh output typed by element type and shape pattern. *)
Definition tensor (dtype : np_dtype) (broadcastable : list bool) : variable :=
  Variable_ (TensorType dtype broadcastable).

(* ===================================================================== *)
(** ** LoadFromDisk *)
(* ===================================================================== *)

(** Instance attributes set by [LoadFromDisk.__init__]. [load_info] is
    [self._info], built from the constructor arguments as given. *)
Record LoadFromDisk := {
  load_dtype : np_dtype;
  load_broadcastable : list bool;
  load_mmap_mode : option string;
  load_info : string * list bool * option string
}.

(** [x in seq] for a tuple. *)
Definition py_in {A} `{EqDecision A} (x : A) (seq : list A) : bool :=
  existsb (fun y => bool_decide (x = y)) seq.

(** [LoadFromDisk.__init__(self, dtype, broadcastable, mmap_mode=None)]. *)
Definition LoadFromDisk_init (dtype : string) (broadcastable : list bool)
    (mmap_mode : option string) : result LoadFromDisk :=
  match numpy_dtype dtype with
  | None => Raise TypeError
  | Some d =>
      if negb (py_in mmap_mode [None; Some "c"]) then Raise ValueError
      else Ok {| load_dtype := d;
                 load_broadcastable := broadcastable;
                 load_mmap_mode := mmap_mode;
                 load_info := (dtype, broadcastable, mmap_mode) |}
  end.

(** [LoadFromDisk.make_node(self, path)]: [path] is a Python string
    ([inl]) or already a graph variable ([inr]). *)
Definition LoadFromDisk_make_node (self : LoadFromDisk)
    (path : string + variable) : Apply LoadFromDisk :=
  let path' := match path with
               | inl s => Constant Generic (VStr s)
               | inr v => v
               end in
  {| apply_op := self;
     apply_inputs := [path'];
     apply_outputs := [tensor (load_dtype self) (load_broadcastable self)] |}.

(** [LoadFromDisk.perform(self, node, inp, out)]; [node] is not used by the
    body. [fs] is the file system that [numpy.load] reads. *)
Definition LoadFromDisk_perform (fs : string -> option file)
    (self : LoadFromDisk) (inp : list value) : M unit :=
  path <- getitem inp 0 ;;
  match path with
  | VStr p =>
      ext <- getitem_last (split "." p) ;;
      if String.eqb ext "npz" then raise ValueError
      else
        result <- numpy_load fs p (load_mmap_mode self) ;;
        d <- attr_dtype result ;;
        if negb (bool_decide (d = load_dtype self)) then raise TypeError
        else setitem_out 0 0 result
  | _ => raise AttributeError
  end.

(** [load(path, dtype, broadcastable, mmap_mode=None)] constructs the loader
    and applies it to [path]: this is the node the application builds (the
    call itself goes through [Op.__call__], which is not under src/, and
    hands back the node's output). *)
Definition load (path : string + variable) (dtype : string)
    (broadcastable : list bool) (mmap_mode : option string)
  : result (Apply LoadFromDisk) :=
  match LoadFromDisk_init dtype broadcastable mmap_mode with
  | Ok o => Ok (LoadFromDisk_make_node o path)
  | Raise e => Raise e
  end.

(* ===================================================================== *)
(** ** The transport layer *)
(* ===================================================================== *)

(** [MPI.COMM_WORLD] as one process sees it. *)
Record Comm := { comm_rank : Z }.

(** Module-level names bound by the [try]/[except] block around the
    [mpi4py] import. *)
Record module_env := {
  mpi_enabled : bool;
  comm : option Comm
}.

(** Execution of the module-level [try]/[except]: [mpi4py] is [Some world]
    when the import succeeds and [None] when it raises. *)
Definition import_module (mpi4py : option Comm) : module_env :=
  match mpi4py with
  | Some world => {| mpi_enabled := true; comm := Some world |}
  | None => {| mpi_enabled := false; comm := None |}
  end.

(** Evaluation of the global name [comm]. *)
Definition global_comm (env : module_env) : M Comm :=
  match comm env with
  | Some c => ret c
  | None => raise NameError
  end.

(** Modelled from the spec: the transport layer ([mpi4py]) is an external
    collaborator. [comm.Isend(buf, dest, tag)] posts the buffer's current
    contents on the channel (this rank, dest, tag) and returns a token
    without blocking. *)
Definition Isend (c : Comm) (buf : value) (dest tag : Z) : M value :=
  match buf with
  | VArr a =>
      fun s =>
        match heap s !! a with
        | Some arr =>
            (Return (VReq SendRequest),
             {| heap := heap s;
                wire := wire s ++ [{| msg_src := comm_rank c; msg_dst := dest;
                                      msg_tag := tag;
                                      msg_data := arr_data arr |}];
                out := out s |})
        | None => (Throw TypeError, s)
        end
  | _ => raise TypeError
  end.

(** Modelled from the spec: [comm.Irecv(buf, source, tag)] registers the
    buffer for the channel (source, this rank, tag) and returns a token
    without blocking. *)
Definition Irecv (c : Comm) (buf : value) (source tag : Z) : M value :=
  match buf with
  | VArr a => ret (VReq (RecvRequest source (comm_rank c) tag a))
  | _ => raise TypeError
  end.

Definition on_channel (source dest tag : Z) (m : message) : bool :=
  (msg_src m =? source) && (msg_dst m =? dest) && (msg_tag m =? tag).

(** The oldest message of a channel, and the wire without it. *)
Fixpoint take_message (source dest tag : Z) (w : list message)
  : option (message * list message) :=
  match w with
  | [] => None
  | m :: w' =>
      if on_channel source dest tag m then Some (m, w')
      else match take_message source dest tag w' with
           | Some (m', rest) => Some (m', m :: rest)
           | None => None
           end
  end.

(** Modelled from the spec: [request.wait()] blocks until completion and
    raises on transport failure. A send completes at once (its payload was
    posted). A receive completes when a message of its channel is available:
    the message is written into the registered buffer in place; a message
    longer than the buffer is a transport failure. An object that is not a
    request has no [wait] attribute. *)
Definition wait (r : value) : M unit :=
  match r with
  | VReq SendRequest => ret tt
  | VReq (RecvRequest source dest tag buf) =>
      fun s =>
        match take_message source dest tag (wire s) with
        | None => (Blocked, s)
        | Some (m, w') =>
            match heap s !! buf with
            | None => (Throw MPIException, s)
            | Some arr =>
                if decide (length (msg_data m) <= length (arr_data arr))%nat
                then (Return tt,
                      {| heap :=
                           <[buf := {| arr_dtype := arr_dtype arr;
                                       arr_shape := arr_shape arr;
                                       arr_data :=
                                         msg_data m ++
                                         drop (length (msg_data m))
                                              (arr_data arr) |}]> (heap s);
                         wire := w';
                         out := out s |})
                else (Throw MPIException,
                      {| heap := heap s; wire := w'; out := out s |})
            end
        end
  | _ => raise AttributeError
  end.

(* ===================================================================== *)
(** ** MPIRecv, MPIRecvWait, MPISend, MPISendWait *)
(* ===================================================================== *)

(** [t * n] for a tuple [t]. *)
Definition tuple_mul {A} (t : list A) (n : nat) : list A :=
  concat (repeat t n).

(** Instance attributes set by [MPIRecv.__init__]. *)
Record MPIRecv := {
  recv_rank : Z;
  recv_tag : Z;
  recv_shape : list Z;
  recv_dtype : np_dtype;
  recv_broadcastable : list bool;
  recv_info : Z * Z * string * list Z
}.

(** [MPIRecv.__init__(self, rank, tag, dtype, shape)]. *)
Definition MPIRecv_init (rank tag : Z) (dtype : string) (shape : list Z)
  : result MPIRecv :=
  match numpy_dtype dtype with
  | None => Raise TypeError
  | Some d =>
      Ok {| recv_rank := rank;
            recv_tag := tag;
            recv_shape := shape;
            recv_dtype := d;
            recv_broadcastable := tuple_mul [false] (length shape);
            recv_info := (rank, tag, dtype, shape) |}
  end.

(** [MPIRecv.perform(self, node, inp, out)], on the platform [pl] that
    [numpy.empty] runs on. *)
Definition MPIRecv_perform (pl : platform) (env : module_env)
    (self : MPIRecv) (inp : list (list value)) : M unit :=
  data <- numpy_empty pl (recv_shape self) (recv_dtype self) ;;
  c <- global_comm env ;;
  request <- Irecv c data (recv_rank self) (recv_tag self) ;;
  setitem_out 0 0 request ;;;
  setitem_out 0 1 data.

(** [MPIRecvWait.__init__(self)] sets no attribute. *)
Record MPIRecvWait := MPIRecvWait_init { }.

(** [MPIRecvWait.perform(self, node, inp, out)]. *)
Definition MPIRecvWait_perform (self : MPIRecvWait)
    (inp : list (list value)) : M unit :=
  inp0 <- getitem inp 0 ;;
  request <- getitem inp0 0 ;;
  inp0' <- getitem inp 0 ;;
  data <- getitem inp0' 1 ;;
  wait request ;;;
  setitem_out 0 0 data.

(** Instance attributes set by [MPISend.__init__]. *)
Record MPISend := {
  send_rank : Z;
  send_tag : Z;
  send_info : Z * Z
}.

(** [MPISend.__init__(self, rank, tag)]. *)
Definition MPISend_init (rank tag : Z) : MPISend :=
  {| send_rank := rank; send_tag := tag; send_info := (rank, tag) |}.

(** [MPISend.perform(self, node, inp, out)]. *)
Definition MPISend_perform (env : module_env) (self : MPISend)
    (inp : list (list value)) : M unit :=
  inp0 <- getitem inp 0 ;;
  data <- getitem inp0 0 ;;
  c <- global_comm env ;;
  request <- Isend c data (send_rank self) (send_tag self) ;;
  setitem_out 0 0 request.

(** [MPISendWait.__init__(self)] sets no attribute. *)
Record MPISendWait := MPISendWait_init { }.

(** [MPISendWait.perform(self, node, inp, out)]. *)
Definition MPISendWait_perform (self : MPISendWait)
    (inp : list (list value)) : M unit :=
  inp0 <- getitem inp 0 ;;
  request <- getitem inp0 0 ;;
  wait request ;;;
  setitem_out 0 0 (VBool true).

(* ===================================================================== *)
(** ** Equality, attribute lookup and hashing of operations *)
(* ===================================================================== *)

(** An instance of one of the five operation classes. *)
Inductive op :=
| Op_LoadFromDisk (o : LoadFromDisk)
| Op_MPIRecv (o : MPIRecv)
| Op_MPIRecvWait (o : MPIRecvWait)
| Op_MPISend (o : MPISend)
| Op_MPISendWait (o : MPISendWait).

(** The classes themselves, as returned by [type(x)]. *)
Inductive op_class :=
| LoadFromDisk_cls | MPIRecv_cls | MPIRecvWait_cls | MPISend_cls
| MPISendWait_cls.

#[global] Instance op_class_eq_dec : EqDecision op_class.
Proof. solve_decision. Defined.

Definition type_of (x : op) : op_class :=
  match x with
  | Op_LoadFromDisk _ => LoadFromDisk_cls
  | Op_MPIRecv _ => MPIRecv_cls
  | Op_MPIRecvWait _ => MPIRecvWait_cls
  | Op_MPISend _ => MPISend_cls
  | Op_MPISendWait _ => MPISendWait_cls
  end.

(** [LoadFromDisk.__eq__(self, other)]. The comparison of [_info] is only
    evaluated when the types agree ([and] short-circuits). *)
Definition LoadFromDisk_eq (self : LoadFromDisk) (other : op) : bool :=
  if bool_decide (LoadFromDisk_cls = type_of other) then
    match other with
    | Op_LoadFromDisk o => bool_decide (load_info self = load_info o)
    | _ => false
    end
  else false.

(** [MPIRecv.__eq__(self, other)]. *)
Definition MPIRecv_eq (self : MPIRecv) (other : op) : bool :=
  if bool_decide (MPIRecv_cls = type_of other) then
    match other with
    | Op_MPIRecv o => bool_decide (recv_info self = recv_info o)
    | _ => false
    end
  else false.

(** [MPIRecvWait.__eq__(self, other)]. *)
Definition MPIRecvWait_eq (self : MPIRecvWait) (other : op) : bool :=
  bool_decide (MPIRecvWait_cls = type_of other).

(** [MPISend.__eq__(self, other)]. *)
Definition MPISend_eq (self : MPISend) (other : op) : bool :=
  if bool_decide (MPISend_cls = type_of other) then
    match other with
    | Op_MPISend o => bool_decide (send_info self = send_info o)
    | _ => false
    end
  else false.

(** [MPISendWait.__eq__(self, other)]. *)
Definition MPISendWait_eq (self : MPISendWait) (other : op) : bool :=
  bool_decide (MPISendWait_cls = type_of other).

(** [self == other]: dispatch on the class of the left operand. *)
Definition op_eq (self other : op) : bool :=
  match self with
  | Op_LoadFromDisk o => LoadFromDisk_eq o other
  | Op_MPIRecv o => MPIRecv_eq o other
  | Op_MPIRecvWait o => MPIRecvWait_eq o other
  | Op_MPISend o => MPISend_eq o other
  | Op_MPISendWait o => MPISendWait_eq o other
  end.

Definition value_of_mmap_mode (m : option string) : value :=
  match m with
  | None => VNone
  | Some s => VStr s
  end.

Definition value_of_load_info (i : string * list bool * option string)
  : value :=
  let '(dtype, broadcastable, mmap_mode) := i in
  VTuple [VStr dtype; VTuple (map VBool broadcastable);
          value_of_mmap_mode mmap_mode].

Definition value_of_recv_info (i : Z * Z * string * list Z) : value :=
  let '(rank, tag, dtype, shape) := i in
  VTuple [VInt rank; VInt tag; VStr dtype; VTuple (map VInt shape)].

Definition value_of_send_info (i : Z * Z) : value :=
  let '(rank, tag) := i in VTuple [VInt rank; VInt tag].

(** The instance dictionary ([self.__dict__]) left by [__init__]. *)
Definition instance_dict (x : op) : gmap string value :=
  match x with
  | Op_LoadFromDisk o =>
      list_to_map
        [("dtype", VDtype (load_dtype o));
         ("broadcastable", VTuple (map VBool (load_broadcastable o)));
         ("mmap_mode", value_of_mmap_mode (load_mmap_mode o));
         ("_info", value_of_load_info (load_info o))]
  | Op_MPIRecv o =>
      list_to_map
        [("rank", VInt (recv_rank o));
         ("tag", VInt (recv_tag o));
         ("shape", VTuple (map VInt (recv_shape o)));
         ("dtype", VDtype (recv_dtype o));
         ("broadcastable", VTuple (map VBool (recv_broadcastable o)));
         ("_info", value_of_recv_info (recv_info o))]
  | Op_MPIRecvWait _ => ∅
  | Op_MPISend o =>
      list_to_map
        [("rank", VInt (send_rank o));
         ("tag", VInt (send_tag o));
         ("_info", value_of_send_info (send_info o))]
  | Op_MPISendWait _ => ∅
  end.

(** The names bound in the body of a class statement: its docstring (only
    the first line is kept) and its methods. *)
Definition class_dict (c : op_class) : gmap string value :=
  match c with
  | LoadFromDisk_cls =>
      list_to_map
        [("__doc__", VStr "An operation to load an array from disk");
         ("__init__", VFunction "LoadFromDisk.__init__");
         ("__eq__", VFunction "LoadFromDisk.__eq__");
         ("__hash__", VFunction "LoadFromDisk.__hash__");
         ("make_node", VFunction "LoadFromDisk.make_node");
         ("perform", VFunction "LoadFromDisk.perform");
         ("__str__", VFunction "LoadFromDisk.__str__")]
  | MPIRecv_cls =>
      list_to_map
        [("__doc__",
          VStr "An operation to asynchronously receive an array to a remote host using MPI");
         ("__init__", VFunction "MPIRecv.__init__");
         ("__eq__", VFunction "MPIRecv.__eq__");
         ("__hash__", VFunction "MPIRecv.__hash__");
         ("make_node", VFunction "MPIRecv.make_node");
         ("perform", VFunction "MPIRecv.perform");
         ("__str__", VFunction "MPIRecv.__str__")]
  | MPIRecvWait_cls =>
      list_to_map
        [("__doc__", VStr "An operation to wait on a previously received array using MPI");
         ("__init__", VFunction "MPIRecvWait.__init__");
         ("__eq__", VFunction "MPIRecvWait.__eq__");
         ("__hash__", VFunction "MPIRecvWait.__hash__");
         ("make_node", VFunction "MPIRecvWait.make_node");
         ("perform", VFunction "MPIRecvWait.perform");
         ("__str__", VFunction "MPIRecvWait.__str__")]
  | MPISend_cls =>
      list_to_map
        [("__doc__",
          VStr "An operation to asynchronously Send an array to a remote host using MPI");
         ("__init__", VFunction "MPISend.__init__");
         ("__eq__", VFunction "MPISend.__eq__");
         ("__hash__", VFunction "MPISend.__hash__");
         ("make_node", VFunction "MPISend.make_node");
         ("perform", VFunction "MPISend.perform");
         ("__str__", VFunction "MPISend.__str__")]
  | MPISendWait_cls =>
      list_to_map
        [("__doc__", VStr "An operation to wait on a previously sent array using MPI");
         ("__init__", VFunction "MPISendWait.__init__");
         ("__eq__", VFunction "MPISendWait.__eq__");
         ("__hash__", VFunction "MPISendWait.__hash__");
         ("make_node", VFunction "MPISendWait.make_node");
         ("perform", VFunction "MPISendWait.perform");
         ("__str__", VFunction "MPISendWait.__str__")]
  end.

Section Hashing.

(** The attributes every operation inherits from the base class
    [theano.gof.Op], which is not part of this file. *)
Variable Op_attrs : gmap string value.

(** Python's builtin [hash]. *)
Variable py_hash : value -> Z.

(** [x.name]: the instance dictionary, then the class, then the base
    class; [AttributeError] when none of them binds the name. *)
Definition getattr (x : op) (name : string) : result value :=
  match instance_dict x !! name with
  | Some v => Ok v
  | None =>
      match class_dict (type_of x) !! name with
      | Some v => Ok v
      | None =>
          match Op_attrs !! name with
          | Some v => Ok v
          | None => Raise AttributeError
          end
      end
  end.

(** [hash(self._info)], as in [LoadFromDisk.__hash__], [MPIRecv.__hash__]
    and [MPISend.__hash__]. *)
Definition info_hash (x : op) : result Z :=
  match getattr x "_info" with
  | Ok v => Ok (py_hash v)
  | Raise e => Raise e
  end.

(** [hash(self.type)], as in [MPIRecvWait.__hash__] and
    [MPISendWait.__hash__]. *)
Definition type_hash (x : op) : result Z :=
  match getattr x "type" with
  | Ok v => Ok (py_hash v)
  | Raise e => Raise e
  end.

Definition LoadFromDisk_hash (self : LoadFromDisk) : result Z :=
  info_hash (Op_LoadFromDisk self).
Definition MPIRecv_hash (self : MPIRecv) : result Z :=
  info_hash (Op_MPIRecv self).
Definition MPIRecvWait_hash (self : MPIRecvWait) : result Z :=
  type_hash (Op_MPIRecvWait self).
Definition MPISend_hash (self : MPISend) : result Z :=
  info_hash (Op_MPISend self).
Definition MPISendWait_hash (self : MPISendWait) : result Z :=
  type_hash (Op_MPISendWait self).

(** [hash(x)]: dispatch on the class. *)
Definition op_hash (x : op) : result Z :=
  match x with
  | Op_LoadFromDisk o => LoadFromDisk_hash o
  | Op_MPIRecv o => MPIRecv_hash o
  | Op_MPIRecvWait o => MPIRecvWait_hash o
  | Op_MPISend o => MPISend_hash o
  | Op_MPISendWait o => MPISendWait_hash o
  end.

End Hashing.

(* ===================================================================== *)
(** ** Module globals and the [make_node] methods of the transfer
       operations *)
(* ===================================================================== *)

Definition rbind {A B} (c : result A) (k : A -> result B) : result B :=
  match c with
  | Ok a => k a
  | Raise e => Raise e
  end.

Notation "x <~ c ;; k" := (rbind c (fun x => k))
  (at level 100, c at next level, right associativity).

(** The names bound at module level once the module body has run: the
    imports ([import numpy], [from theano import gof],
    [from theano.gof import Constant, Generic, Op],
    [from basic import tensor]), the class and function definitions, and
    what the [try]/[except] block binds. [from theano import gof] binds
    [gof] only. *)
Definition module_globals (env : module_env) : gset string :=
  {[ "numpy"; "gof"; "Constant"; "Generic"; "Op"; "tensor";
     "LoadFromDisk"; "load"; "mpi_enabled";
     "MPIRecv"; "MPIRecvWait"; "MPISend"; "MPISendWait" ]}
  ∪ (match comm env with
     | Some _ => {[ "MPI"; "comm" ]}
     | None => ∅
     end).

(** Evaluation of a global name that is not a builtin. *)
Definition global_name (env : module_env) (name : string) : result unit :=
  if bool_decide (name ∈ module_globals env) then Ok tt
  else Raise NameError.

(** An element of the input or output list handed to [gof.Apply]: a graph
    variable, or a type object such as [Generic()]. *)
Inductive node_arg :=
| ArgVariable (v : variable)
| ArgType (ty : var_type).

Fixpoint variables_of (args : list node_arg) : result (list variable) :=
  match args with
  | [] => Ok []
  | ArgVariable v :: rest => vs <~ variables_of rest ;; Ok (v :: vs)
  | ArgType _ :: _ => Raise TypeError
  end.

(** Modelled from the spec: [gof.Apply] is not under src/. A node's inputs
    and outputs are typed variables; a list holding anything else is
    rejected. *)
Definition gof_Apply {O} (o : O) (inputs outputs : list node_arg)
  : result (Apply O) :=
  ins <~ variables_of inputs ;;
  outs <~ variables_of outputs ;;
  Ok {| apply_op := o; apply_inputs := ins; apply_outputs := outs |}.

(** [tensor(d, broadcastable=b)] on attribute values. *)
Definition tensor_of_values (d b : value) : result node_arg :=
  match d, b with
  | VDtype d', VTuple axes =>
      Ok (ArgVariable
            (tensor d' (omap (fun v => match v with
                                       | VBool x => Some x
                                       | _ => None
                                       end) axes)))
  | _, _ => Raise TypeError
  end.

Section MakeNode.

Variable Op_attrs : gmap string value.

(** [MPIRecv.make_node(self)]. The arguments of the call are evaluated from
    left to right: [gof.Apply], [self], the empty list, then the elements
    of the output list, [theano.Generic()] first. *)
Definition MPIRecv_make_node (env : module_env) (self : MPIRecv)
  : result (Apply MPIRecv) :=
  _ <~ global_name env "gof" ;;
  _ <~ global_name env "theano" ;;
  _ <~ global_name env "tensor" ;;
  d <~ getattr Op_attrs (Op_MPIRecv self) "dtype" ;;
  b <~ getattr Op_attrs (Op_MPIRecv self) "broadcastable" ;;
  t <~ tensor_of_values d b ;;
  gof_Apply self [] [ArgType Generic; t].

(** [MPIRecvWait.make_node(self)]. *)
Definition MPIRecvWait_make_node (env : module_env) (self : MPIRecvWait)
  : result (Apply MPIRecvWait) :=
  _ <~ global_name env "gof" ;;
  _ <~ global_name env "theano" ;;
  _ <~ global_name env "tensor" ;;
  d <~ getattr Op_attrs (Op_MPIRecvWait self) "dtype" ;;
  b <~ getattr Op_attrs (Op_MPIRecvWait self) "broadcastable" ;;
  t1 <~ tensor_of_values d b ;;
  _ <~ global_name env "tensor" ;;
  d' <~ getattr Op_attrs (Op_MPIRecvWait self) "dtype" ;;
  b' <~ getattr Op_attrs (Op_MPIRecvWait self) "broadcastable" ;;
  t2 <~ tensor_of_values d' b' ;;
  gof_Apply self [ArgType Generic; t1] [t2].

(** [MPISend.make_node(self)]: the input list, whose element reads
    [self.dtype], is evaluated before the output list. *)
Definition MPISend_make_node (env : module_env) (self : MPISend)
  : result (Apply MPISend) :=
  _ <~ global_name env "gof" ;;
  _ <~ global_name env "tensor" ;;
  d <~ getattr Op_attrs (Op_MPISend self) "dtype" ;;
  b <~ getattr Op_attrs (Op_MPISend self) "broadcastable" ;;
  t <~ tensor_of_values d b ;;
  _ <~ global_name env "theano" ;;
  gof_Apply self [t] [ArgType Generic].

(** [MPISendWait.make_node(self)]. *)
Definition MPISendWait_make_node (env : module_env) (self : MPISendWait)
  : result (Apply MPISendWait) :=
  _ <~ global_name env "gof" ;;
  _ <~ global_name env "theano" ;;
  _ <~ global_name env "theano" ;;
  gof_Apply self [ArgType Generic] [ArgType Generic].

End MakeNode.

(* ===================================================================== *)
(** ** String formatting and the [__str__] methods *)
(* ===================================================================== *)

(** The values found in the [_info] tuples: integers, strings, [None], and
    tuples of booleans or of integers. *)
Inductive fmt_arg :=
| FInt (z : Z)
| FStr (s : string)
| FNone
| FBools (l : list bool)
| FInts (l : list Z).

Definition str_of_bool (b : bool) : string :=
  if b then "True" else "False".

Fixpoint join (sep : string) (parts : list string) : string :=
  match parts with
  | [] => ""
  | [p] => p
  | p :: rest => p +:+ sep +:+ join sep rest
  end.

(** [str(t)] for a tuple, given the [repr] of its elements: a tuple of one
    element is written with a trailing comma. *)
Definition str_of_tuple (elements : list string) : string :=
  match elements with
  | [e] => "(" +:+ e +:+ ",)"
  | _ => "(" +:+ join ", " elements +:+ ")"
  end.

(** [str(a)]. *)
Definition py_str (a : fmt_arg) : string :=
  match a with
  | FInt z => pretty z
  | FStr s => s
  | FNone => "None"
  | FBools l => str_of_tuple (map str_of_bool l)
  | FInts l => str_of_tuple (map pretty l)
  end.

Definition prepend (s : string) (r : result string) : result string :=
  match r with
  | Ok t => Ok (s +:+ t)
  | Raise e => Raise e
  end.

(** [fmt % args] for a tuple [args], restricted to the conversions [%s],
    [%d] and [%%] (the file uses no other; any other character after [%]
    is answered with [ValueError]). Too few arguments, arguments left over,
    and [%d] applied to something that is not a number raise [TypeError]. *)
Fixpoint format (fmt : string) (args : list fmt_arg) : result string :=
  match fmt with
  | EmptyString =>
      match args with
      | [] => Ok ""
      | _ :: _ => Raise TypeError
      end
  | String c rest =>
      if Ascii.eqb c "%" then
        match rest with
        | EmptyString => Raise ValueError
        | String k rest' =>
            if Ascii.eqb k "s" then
              match args with
              | a :: args' => prepend (py_str a) (format rest' args')
              | [] => Raise TypeError
              end
            else if Ascii.eqb k "d" then
              match args with
              | FInt z :: args' => prepend (pretty z) (format rest' args')
              | _ :: _ => Raise TypeError
              | [] => Raise TypeError
              end
            else if Ascii.eqb k "%" then
              prepend "%" (format rest' args)
            else Raise ValueError
        end
      else prepend (String c "") (format rest args)
  end.

Definition fmt_mmap_mode (m : option string) : fmt_arg :=
  match m with
  | None => FNone
  | Some s => FStr s
  end.

(** [LoadFromDisk.__str__(self)]. *)
Definition LoadFromDisk_str (self : LoadFromDisk) : result string :=
  let '(dtype, broadcastable, mmap_mode) := load_info self in
  format "Load{dtype:%s, broadcastable:%s, mmep:%s}"
         [FStr dtype; FBools broadcastable; fmt_mmap_mode mmap_mode].

(** [MPIRecv.__str__(self)]. *)
Definition MPIRecv_str (self : MPIRecv) : result string :=
  let '(rank, tag, dtype, shape) := recv_info self in
  format "MPIRecv{source: %d, tag: %d, dtype:%s, shape:%s, :%s}"
         [FInt rank; FInt tag; FStr dtype; FInts shape].

(** [MPIRecvWait.__str__(self)]. *)
Definition MPIRecvWait_str (self : MPIRecvWait) : result string :=
  Ok "MPIRecvWait".

(** [MPISend.__str__(self)]. *)
Definition MPISend_str (self : MPISend) : result string :=
  let '(rank, tag) := send_info self in
  format "MPISend{dest: %d, tag: %d}" [FInt rank; FInt tag].

(** [MPISendWait.__str__(self)]. *)
Definition MPISendWait_str (self : MPISendWait) : result string :=
  Ok "MPISendWait".

(* ===================================================================== *)
(** ** Nodes built by the constructors; characters of a string *)
(* ===================================================================== *)

(** The operation instances that the constructors can return. *)
Inductive constructed : op -> Prop :=
| constructed_LoadFromDisk dtype broadcastable mmap_mode o :
    LoadFromDisk_init dtype broadcastable mmap_mode = Ok o ->
    constructed (Op_LoadFromDisk o)
| constructed_MPIRecv rank tag dtype shape o :
    MPIRecv_init rank tag dtype shape = Ok o ->
    constructed (Op_MPIRecv o)
| constructed_MPIRecvWait : constructed (Op_MPIRecvWait MPIRecvWait_init)
| constructed_MPISend rank tag :
    constructed (Op_MPISend (MPISend_init rank tag))
| constructed_MPISendWait : constructed (Op_MPISendWait MPISendWait_init).

(** [c in s] for a character. *)
Fixpoint occurs (c : ascii) (s : string) : bool :=
  match s with
  | EmptyString => false
  | String a s' => Ascii.eqb a c || occurs c s'
  end.

(* ===================================================================== *)
(** * Properties *)
(* ===================================================================== *)

(** ** Construction of a loader *)

Lemma py_in_mmap_modes (m : option string) :
  py_in m [None; Some "c"] = true <-> m = None \/ m = Some "c".
Proof.
  unfold py_in; cbn [existsb].
  rewrite !orb_true_iff, !bool_decide_eq_true.
  intuition congruence.
Qed.

(** C3. For every element type and shape pattern, constructing a loader
    succeeds when the mmap mode is [None] or ['c'], and for every other mmap
    mode the constructor itself raises [ValueError]: no loader object exists
    on which a compute step could run. *)
Theorem LoadFromDisk_init_mmap_mode
    (dtype : string) (d : np_dtype) (broadcastable : list bool)
    (mmap_mode : option string) :
  numpy_dtype dtype = Some d ->
  (mmap_mode = None \/ mmap_mode = Some "c" ->
   LoadFromDisk_init dtype broadcastable mmap_mode =
     Ok {| load_dtype := d; load_broadcastable := broadcastable;
           load_mmap_mode := mmap_mode;
           load_info := (dtype, broadcastable, mmap_mode) |}) /\
  (mmap_mode <> None -> mmap_mode <> Some "c" ->
   LoadFromDisk_init dtype broadcastable mmap_mode = Raise ValueError).
Proof.
  intros Hd. unfold LoadFromDisk_init. rewrite Hd.
  destruct (py_in mmap_mode [None; Some "c"]) eqn:Hin; cbn [negb].
  - apply py_in_mmap_modes in Hin. split; [reflexivity | tauto].
  - split; [| reflexivity].
    intros Hm. apply py_in_mmap_modes in Hm. congruence.
Qed.

Lemma LoadFromDisk_init_mmap_mode_witness :
  LoadFromDisk_init "float64" [false; true] (Some "c") =
    Ok {| load_dtype := float64; load_broadcastable := [false; true];
          load_mmap_mode := Some "c";
          load_info := ("float64", [false; true], Some "c") |} /\
  LoadFromDisk_init "float64" [false; true] (Some "r+") = Raise ValueError.
Proof.
  split.
  - apply (LoadFromDisk_init_mmap_mode "float64" float64 [false; true]
             (Some "c")); [reflexivity | right; reflexivity].
  - apply (LoadFromDisk_init_mmap_mode "float64" float64 [false; true]
             (Some "r+")); [reflexivity | discriminate | discriminate].
Defined.

(** ** Equality of operations *)

Lemma LoadFromDisk_init_info dtype b m o :
  LoadFromDisk_init dtype b m = Ok o ->
  load_info o = (dtype, b, m) /\ numpy_dtype dtype = Some (load_dtype o) /\
  load_broadcastable o = b /\ load_mmap_mode o = m.
Proof.
  unfold LoadFromDisk_init.
  destruct (numpy_dtype dtype); [| discriminate].
  destruct (negb _); [discriminate |].
  intros [= <-]. cbn. auto.
Qed.

Lemma MPIRecv_init_info rank tag dtype shape r :
  MPIRecv_init rank tag dtype shape = Ok r ->
  recv_info r = (rank, tag, dtype, shape) /\
  numpy_dtype dtype = Some (recv_dtype r) /\
  recv_rank r = rank /\ recv_tag r = tag /\ recv_shape r = shape /\
  recv_broadcastable r = tuple_mul [false] (length shape).
Proof.
  unfold MPIRecv_init.
  destruct (numpy_dtype dtype); [| discriminate].
  intros [= <-]. cbn. auto 6.
Qed.

Lemma LoadFromDisk_eq_same o1 o2 :
  op_eq (Op_LoadFromDisk o1) (Op_LoadFromDisk o2) =
  bool_decide (load_info o1 = load_info o2).
Proof.
  unfold op_eq, LoadFromDisk_eq; cbn [type_of].
  rewrite bool_decide_eq_true_2 by reflexivity. reflexivity.
Qed.

Lemma MPIRecv_eq_same o1 o2 :
  op_eq (Op_MPIRecv o1) (Op_MPIRecv o2) =
  bool_decide (recv_info o1 = recv_info o2).
Proof.
  unfold op_eq, MPIRecv_eq; cbn [type_of].
  rewrite bool_decide_eq_true_2 by reflexivity. reflexivity.
Qed.

Lemma MPISend_eq_same o1 o2 :
  op_eq (Op_MPISend o1) (Op_MPISend o2) =
  bool_decide (send_info o1 = send_info o2).
Proof.
  unfold op_eq, MPISend_eq; cbn [type_of].
  rewrite bool_decide_eq_true_2 by reflexivity. reflexivity.
Qed.

(** C5, as stated, fails: two loaders configured with the identifiers
    ["int64"] and ["i8"] have the same element type, shape pattern and mmap
    mode, and they are not equal. *)
Lemma LoadFromDisk_eq_alias_counterexample :
  exists o1 o2,
    LoadFromDisk_init "int64" [false] None = Ok o1 /\
    LoadFromDisk_init "i8" [false] None = Ok o2 /\
    load_dtype o1 = load_dtype o2 /\
    load_broadcastable o1 = load_broadcastable o2 /\
    load_mmap_mode o1 = load_mmap_mode o2 /\
    op_eq (Op_LoadFromDisk o1) (Op_LoadFromDisk o2) = false.
Proof.
  eexists; eexists.
  split; [reflexivity |]. split; [reflexivity |].
  rewrite LoadFromDisk_eq_same. cbn. repeat split; reflexivity.
Qed.

(** C5, amended. Two loader nodes are equal if and only if the element-type
    identifiers they were constructed with, their shape patterns and their
    mmap modes are equal; and equal loaders have the same canonical element
    type, shape pattern and mmap mode. *)
Theorem LoadFromDisk_eq_iff
    (dtype1 dtype2 : string) (b1 b2 : list bool) (m1 m2 : option string)
    (o1 o2 : LoadFromDisk) :
  LoadFromDisk_init dtype1 b1 m1 = Ok o1 ->
  LoadFromDisk_init dtype2 b2 m2 = Ok o2 ->
  (op_eq (Op_LoadFromDisk o1) (Op_LoadFromDisk o2) = true <->
   dtype1 = dtype2 /\ b1 = b2 /\ m1 = m2) /\
  (op_eq (Op_LoadFromDisk o1) (Op_LoadFromDisk o2) = true ->
   load_dtype o1 = load_dtype o2 /\
   load_broadcastable o1 = load_broadcastable o2 /\
   load_mmap_mode o1 = load_mmap_mode o2).
Proof.
  intros H1 H2.
  apply LoadFromDisk_init_info in H1 as (Hi1 & Hd1 & Hb1 & Hm1).
  apply LoadFromDisk_init_info in H2 as (Hi2 & Hd2 & Hb2 & Hm2).
  assert (Heq : op_eq (Op_LoadFromDisk o1) (Op_LoadFromDisk o2) = true <->
                dtype1 = dtype2 /\ b1 = b2 /\ m1 = m2).
  { rewrite LoadFromDisk_eq_same, bool_decide_eq_true, Hi1, Hi2.
    split; [intros [= -> -> ->]; auto | intros (-> & -> & ->); reflexivity]. }
  split; [exact Heq |].
  intros (-> & -> & ->)%Heq.
  repeat split; congruence.
Qed.

Lemma LoadFromDisk_eq_iff_witness :
  exists o1 o2,
    LoadFromDisk_init "int64" [false] None = Ok o1 /\
    LoadFromDisk_init "int64" [false] None = Ok o2 /\
    op_eq (Op_LoadFromDisk o1) (Op_LoadFromDisk o2) = true /\
    load_dtype o1 = load_dtype o2.
Proof.
  eexists; eexists.
  split; [reflexivity |]. split; [reflexivity |].
  pose proof (LoadFromDisk_eq_iff "int64" "int64" [false] [false] None None
                _ _ eq_refl eq_refl) as [Hiff Himp].
  assert (Ht : op_eq
     (Op_LoadFromDisk
        {| load_dtype := int64; load_broadcastable := [false];
           load_mmap_mode := None; load_info := ("int64", [false], None) |})
     (Op_LoadFromDisk
        {| load_dtype := int64; load_broadcastable := [false];
           load_mmap_mode := None; load_info := ("int64", [false], None) |})
     = true).
  { apply Hiff. repeat split; reflexivity. }
  split; [exact Ht | exact (proj1 (Himp Ht))].
Defined.

(** C6, as stated, fails for the element type: two Receive nodes with the
    same peer rank, tag, element type and shape are unequal when the element
    type was named by different identifiers. *)
Lemma MPIRecv_eq_alias_counterexample :
  exists r1 r2,
    MPIRecv_init 0 7 "int64" [3] = Ok r1 /\
    MPIRecv_init 0 7 "i8" [3] = Ok r2 /\
    recv_rank r1 = recv_rank r2 /\ recv_tag r1 = recv_tag r2 /\
    recv_dtype r1 = recv_dtype r2 /\ recv_shape r1 = recv_shape r2 /\
    op_eq (Op_MPIRecv r1) (Op_MPIRecv r2) = false.
Proof.
  eexists; eexists.
  split; [reflexivity |]. split; [reflexivity |].
  rewrite MPIRecv_eq_same. cbn. repeat split; reflexivity.
Qed.

(** C6, amended. Two Receive nodes are equal if and only if their peer rank,
    tag, element-type identifier as given to the constructor, and shape all
    match, so changing any one of the four makes them unequal; equal Receive
    nodes have the same canonical element type. Two Send nodes are equal if
    and only if their peer rank and tag match, so changing either makes them
    unequal. *)
Theorem MPIRecv_MPISend_eq_iff :
  (forall rank1 tag1 dtype1 shape1 rank2 tag2 dtype2 shape2 r1 r2,
     MPIRecv_init rank1 tag1 dtype1 shape1 = Ok r1 ->
     MPIRecv_init rank2 tag2 dtype2 shape2 = Ok r2 ->
     (op_eq (Op_MPIRecv r1) (Op_MPIRecv r2) = true <->
      rank1 = rank2 /\ tag1 = tag2 /\ dtype1 = dtype2 /\ shape1 = shape2) /\
     (rank1 <> rank2 \/ tag1 <> tag2 \/ dtype1 <> dtype2 \/ shape1 <> shape2 ->
      op_eq (Op_MPIRecv r1) (Op_MPIRecv r2) = false) /\
     (op_eq (Op_MPIRecv r1) (Op_MPIRecv r2) = true ->
      recv_dtype r1 = recv_dtype r2)) /\
  (forall rank1 tag1 rank2 tag2,
     (op_eq (Op_MPISend (MPISend_init rank1 tag1))
            (Op_MPISend (MPISend_init rank2 tag2)) = true <->
      rank1 = rank2 /\ tag1 = tag2) /\
     (rank1 <> rank2 \/ tag1 <> tag2 ->
      op_eq (Op_MPISend (MPISend_init rank1 tag1))
            (Op_MPISend (MPISend_init rank2 tag2)) = false)).
Proof.
  split.
  - intros rank1 tag1 dtype1 shape1 rank2 tag2 dtype2 shape2 r1 r2 H1 H2.
    apply MPIRecv_init_info in H1 as (Hi1 & Hd1 & _).
    apply MPIRecv_init_info in H2 as (Hi2 & Hd2 & _).
    rewrite MPIRecv_eq_same, Hi1, Hi2.
    split; [| split].
    + rewrite bool_decide_eq_true.
      split; [intros [= -> -> -> ->]; auto
             | intros (-> & -> & -> & ->); reflexivity].
    + intros Hne. apply bool_decide_eq_false.
      intros [= -> -> -> ->]. intuition congruence.
    + rewrite bool_decide_eq_true. intros [= _ _ Hd _].
      subst dtype2. congruence.
  - intros rank1 tag1 rank2 tag2.
    rewrite MPISend_eq_same. cbn [MPISend_init send_info].
    split.
    + rewrite bool_decide_eq_true.
      split; [intros [= -> ->]; auto | intros (-> & ->); reflexivity].
    + intros Hne. apply bool_decide_eq_false.
      intros [= -> ->]. intuition congruence.
Qed.

Lemma MPIRecv_MPISend_eq_iff_witness :
  exists r1 r2,
    MPIRecv_init 0 7 "int64" [3] = Ok r1 /\
    MPIRecv_init 0 8 "int64" [3] = Ok r2 /\
    op_eq (Op_MPIRecv r1) (Op_MPIRecv r1) = true /\
    op_eq (Op_MPIRecv r1) (Op_MPIRecv r2) = false /\
    op_eq (Op_MPISend (MPISend_init 1 7)) (Op_MPISend (MPISend_init 1 7))
      = true /\
    op_eq (Op_MPISend (MPISend_init 1 7)) (Op_MPISend (MPISend_init 2 7))
      = false.
Proof.
  eexists; eexists.
  split; [reflexivity |]. split; [reflexivity |].
  destruct MPIRecv_MPISend_eq_iff as [Hrecv Hsend].
  split; [| split; [| split]].
  - apply (Hrecv 0 7 "int64" [3] 0 7 "int64" [3] _ _ eq_refl eq_refl).
    repeat split; reflexivity.
  - apply (Hrecv 0 7 "int64" [3] 0 8 "int64" [3] _ _ eq_refl eq_refl).
    right; left; discriminate.
  - apply (Hsend 1 7 1 7). split; reflexivity.
  - apply (Hsend 1 7 2 7). left; discriminate.
Defined.

(** C7. The Wait operations have no configurable parameter (all instances
    of a class are the same value), any two instances of the same kind are
    equal, and a Wait instance is equal to an operation exactly when that
    operation has the same class: in particular instances of the two
    different Wait kinds are unequal, in either order. *)
Theorem Wait_eq_by_type :
  (forall a b : MPIRecvWait, a = b) /\
  (forall a b : MPISendWait, a = b) /\
  (forall a b, op_eq (Op_MPIRecvWait a) (Op_MPIRecvWait b) = true) /\
  (forall a b, op_eq (Op_MPISendWait a) (Op_MPISendWait b) = true) /\
  (forall a b, op_eq (Op_MPIRecvWait a) (Op_MPISendWait b) = false) /\
  (forall a b, op_eq (Op_MPISendWait a) (Op_MPIRecvWait b) = false) /\
  (forall a y, op_eq (Op_MPIRecvWait a) y =
               bool_decide (type_of (Op_MPIRecvWait a) = type_of y)) /\
  (forall a y, op_eq (Op_MPISendWait a) y =
               bool_decide (type_of (Op_MPISendWait a) = type_of y)).
Proof.
  repeat split.
  - intros [] []; reflexivity.
  - intros [] []; reflexivity.
Qed.

(** ** Hashing of the Wait operations *)

(** C9. Provided the base class [Op] binds no attribute named [type], for
    every instance of [MPIRecvWait] or [MPISendWait] computing the hash
    raises [AttributeError], although comparing the instance with itself
    succeeds and answers [True]: equal instances have no hash at all. *)
Theorem Wait_hash_raises
    (Op_attrs : gmap string value) (py_hash : value -> Z)
    (r : MPIRecvWait) (s : MPISendWait) :
  Op_attrs !! "type" = None ->
  op_hash Op_attrs py_hash (Op_MPIRecvWait r) = Raise AttributeError /\
  op_hash Op_attrs py_hash (Op_MPISendWait s) = Raise AttributeError /\
  op_eq (Op_MPIRecvWait r) (Op_MPIRecvWait r) = true /\
  op_eq (Op_MPISendWait s) (Op_MPISendWait s) = true.
Proof.
  intros Hbase.
  unfold op_hash, MPIRecvWait_hash, MPISendWait_hash, type_hash, getattr.
  cbn [instance_dict type_of]. rewrite !lookup_empty.
  assert (Hr : class_dict MPIRecvWait_cls !! "type" = None)
    by (vm_compute; reflexivity).
  assert (Hs : class_dict MPISendWait_cls !! "type" = None)
    by (vm_compute; reflexivity).
  rewrite Hr, Hs, Hbase. repeat split.
Qed.

Lemma Wait_hash_raises_witness :
  op_hash ∅ (fun _ => 0) (Op_MPIRecvWait MPIRecvWait_init)
    = Raise AttributeError /\
  op_hash ∅ (fun _ => 0) (Op_MPISendWait MPISendWait_init)
    = Raise AttributeError /\
  op_eq (Op_MPIRecvWait MPIRecvWait_init) (Op_MPIRecvWait MPIRecvWait_init)
    = true /\
  op_eq (Op_MPISendWait MPISendWait_init) (Op_MPISendWait MPISendWait_init)
    = true.
Proof.
  apply (Wait_hash_raises ∅ (fun _ => 0) MPIRecvWait_init MPISendWait_init).
  reflexivity.
Defined.

(** ** Shape pattern of a Receive node *)

Lemma tuple_mul_singleton {A} (x : A) (n : nat) :
  tuple_mul [x] n = repeat x n.
Proof. unfold tuple_mul. symmetry. apply repeat_to_concat. Qed.

(** C10. A Receive node constructed from any (rank, tag, element type,
    shape) has the shape pattern [(False,) * len(shape)]: its length is the
    declared rank, and every axis is non-broadcastable. The node is an
    immutable record: no method of the class produces a changed node. *)
Theorem MPIRecv_broadcastable
    (rank tag : Z) (dtype : string) (shape : list Z) (r : MPIRecv) :
  MPIRecv_init rank tag dtype shape = Ok r ->
  recv_broadcastable r = repeat false (length shape) /\
  length (recv_broadcastable r) = length (recv_shape r) /\
  Forall (fun axis => axis = false) (recv_broadcastable r).
Proof.
  intros (_ & _ & _ & _ & Hs & Hb)%MPIRecv_init_info.
  rewrite Hb, Hs, tuple_mul_singleton, repeat_length.
  split; [reflexivity |]. split; [reflexivity |].
  clear Hb Hs.
  induction (length shape) as [| n IH]; cbn [repeat]; constructor; auto.
Qed.

Lemma MPIRecv_broadcastable_witness :
  exists r,
    MPIRecv_init 0 7 "int64" [3; 4] = Ok r /\
    recv_broadcastable r = [false; false] /\
    length (recv_broadcastable r) = length (recv_shape r) /\
    Forall (fun axis => axis = false) (recv_broadcastable r).
Proof.
  eexists. split; [reflexivity |].
  apply (MPIRecv_broadcastable 0 7 "int64" [3; 4]). reflexivity.
Defined.

(** ** The compute step of the loader *)

Lemma split_not_nil sep s : split sep s <> [].
Proof.
  destruct s as [| c s]; cbn [split]; [discriminate |].
  destruct (Ascii.eqb c sep); [discriminate |].
  destruct (split sep s); discriminate.
Qed.

Lemma split_singleton sep s w : split sep s = [w] -> s = w.
Proof.
  revert w. induction s as [| c s IH]; intros w; cbn [split].
  - intros [= <-]. reflexivity.
  - destruct (Ascii.eqb c sep).
    + intros [= _ H]. destruct (split_not_nil _ _ H).
    + destruct (split sep s) as [| w' ws] eqn:Hs; [intros [= <-]|].
      * destruct (split_not_nil _ _ Hs).
      * intros [= <- ->]. f_equal. apply IH. reflexivity.
Qed.

Lemma last_split_cons sep c s :
  last (split sep (String c s)) =
  if Ascii.eqb c sep then last (split sep s)
  else match split sep s with
       | [w] => Some (String c w)
       | _ => last (split sep s)
       end.
Proof.
  cbn [split]. destruct (Ascii.eqb c sep).
  - destruct (split sep s) eqn:Hs; [destruct (split_not_nil _ _ Hs) |].
    reflexivity.
  - destruct (split sep s) as [| w [| w' ws]] eqn:Hs;
      [destruct (split_not_nil _ _ Hs) | reflexivity | reflexivity].
Qed.

Lemma split_length_cons sep c s :
  (length (split sep s) <= length (split sep (String c s)))%nat.
Proof.
  cbn [split]. destruct (Ascii.eqb c sep); [cbn [length]; lia |].
  destruct (split sep s); cbn [length]; lia.
Qed.

Lemma split_append_npz pre :
  (2 <= length (split "." (pre +:+ ".npz")))%nat /\
  last (split "." (pre +:+ ".npz")) = Some "npz".
Proof.
  induction pre as [| c pre [IHlen IHlast]].
  - split; [vm_compute; lia | reflexivity].
  - change (String c pre +:+ ".npz") with (String c (pre +:+ ".npz")).
    split.
    + pose proof (split_length_cons "." c (pre +:+ ".npz")). lia.
    + rewrite last_split_cons.
      destruct (Ascii.eqb c "."); [assumption |].
      destruct (split "." (pre +:+ ".npz")) as [| w [| w' ws]];
        cbn [length] in IHlen; [lia | lia | assumption].
Qed.

(** A path passes the archive test exactly when it ends in [.npz], or is
    the bare name [npz] (a path without any dot is its own last component). *)
Lemma has_npz_extension_iff p :
  has_npz_extension p <->
  p = "npz" \/ exists pre, p = pre +:+ ".npz".
Proof.
  unfold has_npz_extension. split.
  - induction p as [| c p IH].
    + cbn. discriminate.
    + rewrite last_split_cons.
      destruct (Ascii.eqb c ".") eqn:Hc.
      * apply Ascii.eqb_eq in Hc. subst c. intros H.
        destruct (IH H) as [-> | [pre ->]].
        -- right. exists "". reflexivity.
        -- right. exists (String "." pre). reflexivity.
      * destruct (split "." p) as [| w [| w' ws]] eqn:Hs.
        -- destruct (split_not_nil _ _ Hs).
        -- intros [= -> ->]. apply split_singleton in Hs. subst p. left; reflexivity.
        -- intros H. destruct (IH H) as [-> | [pre ->]].
           ++ cbn in Hs. discriminate.
           ++ right. exists (String c pre). reflexivity.
  - intros [-> | [pre ->]]; [reflexivity | apply split_append_npz].
Qed.

(** C2. Whatever the loader configuration and whatever the file system
    holds, the compute step raises [ValueError] on a path ending in [.npz]
    and leaves the state, hence the output storage, untouched. On any other
    path naming a single-array file whose stored element type differs from
    the configured one it raises [TypeError]: the array has been read as
    stored (no conversion), and the output storage is unchanged. *)
Theorem LoadFromDisk_perform_errors
    (fs : string -> option file) (self : LoadFromDisk) :
  (forall pre rest s,
     LoadFromDisk_perform fs self (VStr (pre +:+ ".npz") :: rest) s
       = (Throw ValueError, s)) /\
  (forall p a rest s,
     ~ has_npz_extension p ->
     fs p = Some (NpyFile a) ->
     arr_dtype a <> load_dtype self ->
     LoadFromDisk_perform fs self (VStr p :: rest) s
       = (Throw TypeError,
          {| heap := (heap s ++ [a])%list; wire := wire s; out := out s |})).
Proof.
  split.
  - intros pre rest s.
    unfold LoadFromDisk_perform, bind, getitem, getitem_last; cbn [lookup list_lookup ret].
    rewrite (proj2 (split_append_npz pre)). reflexivity.
  - intros p a rest s Hext Hfs Hne.
    unfold LoadFromDisk_perform, bind, getitem, getitem_last; cbn [lookup list_lookup ret].
    unfold has_npz_extension in Hext.
    destruct (last (split "." p)) as [ext |] eqn:Hlast.
    + unfold ret. destruct (String.eqb ext "npz") eqn:Heq.
      * apply String.eqb_eq in Heq. congruence.
      * unfold numpy_load. rewrite Hfs. unfold bind, alloc, ret, attr_dtype.
        cbn [heap]. rewrite list_lookup_middle by reflexivity.
        rewrite bool_decide_eq_false_2 by assumption. reflexivity.
    + apply last_None in Hlast. destruct (split_not_nil _ _ Hlast).
Qed.

Lemma LoadFromDisk_perform_errors_witness :
  let fs := fun p : string =>
    if String.eqb p "a.npy"
    then Some (NpyFile {| arr_dtype := float32; arr_shape := [2];
                          arr_data := [5; 6] |})
    else None in
  let self := {| load_dtype := int64; load_broadcastable := [false];
                 load_mmap_mode := None;
                 load_info := ("int64", [false], None) |} in
  let s := {| heap := []; wire := []; out := [[VNone]] |} in
  LoadFromDisk_perform fs self [VStr "a.npz"] s = (Throw ValueError, s) /\
  LoadFromDisk_perform fs self [VStr "a.npy"] s
    = (Throw TypeError,
       {| heap := [{| arr_dtype := float32; arr_shape := [2];
                      arr_data := [5; 6] |}];
          wire := []; out := [[VNone]] |}).
Proof.
  intros fs self s. split.
  - apply (proj1 (LoadFromDisk_perform_errors fs self) "a" [] s).
  - apply (proj2 (LoadFromDisk_perform_errors fs self) "a.npy" _ [] s).
    + unfold has_npz_extension. vm_compute. discriminate.
    + reflexivity.
    + cbn. discriminate.
Defined.

Lemma LoadFromDisk_perform_returns
    (fs : string -> option file) (self : LoadFromDisk)
    (p : string) (a : ndarray) (rest : list value)
    (s : pstate) (v0 : value) (cell0 : list value) :
  ~ has_npz_extension p ->
  fs p = Some (NpyFile a) ->
  arr_dtype a = load_dtype self ->
  out s !! 0%nat = Some (v0 :: cell0) ->
  LoadFromDisk_perform fs self (VStr p :: rest) s
    = (Return tt,
       {| heap := (heap s ++ [a])%list; wire := wire s;
          out := <[0%nat := VArr (length (heap s)) :: cell0]> (out s) |}).
Proof.
  intros Hext Hfs Hty Hout.
  unfold LoadFromDisk_perform, bind, getitem, getitem_last;
    cbn [lookup list_lookup ret].
  unfold has_npz_extension in Hext.
  destruct (last (split "." p)) as [ext |] eqn:Hlast.
  - unfold ret. destruct (String.eqb ext "npz") eqn:Heq.
    + apply String.eqb_eq in Heq. congruence.
    + unfold numpy_load. rewrite Hfs. unfold bind, alloc, ret, attr_dtype.
      cbn [heap]. rewrite list_lookup_middle by reflexivity.
      rewrite bool_decide_eq_true_2 by congruence. cbn [negb].
      unfold setitem_out. cbn [out heap wire]. rewrite Hout.
      cbn [length]. destruct (decide (0 < S (length cell0))%nat); [| lia].
      reflexivity.
  - apply last_None in Hlast. destruct (split_not_nil _ _ Hlast).
Qed.

(** C4. For a loader constructed with element-type identifier [dtype] and
    shape pattern [broadcastable], the output declared by [make_node] is a
    tensor of the configured (canonical) element type and the configured
    shape pattern; and the compute step, run on a path without the archive
    extension that names a single-array file whose stored element type
    is the configured one, returns normally and stores in [out[0][0]] the
    loaded array, whose element type is exactly the configured one. *)
Theorem LoadFromDisk_loads_configured_type
    (fs : string -> option file)
    (dtype : string) (broadcastable : list bool) (mmap_mode : option string)
    (self : LoadFromDisk) (d : np_dtype)
    (p : string) (a : ndarray) (rest : list value)
    (s : pstate) (v0 : value) (cell0 : list value) :
  LoadFromDisk_init dtype broadcastable mmap_mode = Ok self ->
  numpy_dtype dtype = Some d ->
  ~ has_npz_extension p ->
  fs p = Some (NpyFile a) ->
  arr_dtype a = d ->
  out s !! 0%nat = Some (v0 :: cell0) ->
  (forall path,
     apply_outputs (LoadFromDisk_make_node self path)
       = [Variable_ (TensorType d broadcastable)]) /\
  LoadFromDisk_perform fs self (VStr p :: rest) s
    = (Return tt,
       {| heap := (heap s ++ [a])%list; wire := wire s;
          out := <[0%nat := VArr (length (heap s)) :: cell0]> (out s) |}) /\
  (heap s ++ [a])%list !! length (heap s) = Some a /\
  arr_dtype a = load_dtype self.
Proof.
  intros Hinit Hd Hext Hfs Hty Hout.
  apply LoadFromDisk_init_info in Hinit as (_ & Hd' & Hb & _).
  assert (Hself : load_dtype self = d) by congruence.
  split; [| split; [| split]].
  - intros path. unfold LoadFromDisk_make_node, tensor. cbn [apply_outputs].
    rewrite Hself, Hb. reflexivity.
  - eapply LoadFromDisk_perform_returns; eauto. congruence.
  - apply list_lookup_middle. reflexivity.
  - congruence.
Qed.

Lemma LoadFromDisk_loads_configured_type_witness :
  let arr := {| arr_dtype := int64; arr_shape := [5];
                arr_data := [0; 1; 2; 3; 4] |} in
  let fs := fun p : string =>
    if String.eqb p "stored-array.npy" then Some (NpyFile arr) else None in
  let self := {| load_dtype := int64; load_broadcastable := [false];
                 load_mmap_mode := None;
                 load_info := ("int64", [false], None) |} in
  let s := {| heap := []; wire := []; out := [[VNone]] |} in
  (forall path,
     apply_outputs (LoadFromDisk_make_node self path)
       = [Variable_ (TensorType int64 [false])]) /\
  LoadFromDisk_perform fs self [VStr "stored-array.npy"] s
    = (Return tt, {| heap := [arr]; wire := []; out := [[VArr 0]] |}) /\
  [arr] !! 0%nat = Some arr /\
  arr_dtype arr = load_dtype self.
Proof.
  intros arr fs self s.
  apply (LoadFromDisk_loads_configured_type fs "int64" [false] None self int64
           "stored-array.npy" arr [] s VNone []).
  - reflexivity.
  - reflexivity.
  - unfold has_npz_extension. vm_compute. discriminate.
  - reflexivity.
  - reflexivity.
  - reflexivity.
Defined.

(** ** Allocation of the receive buffer *)

(** [numpy.empty] either returns a fresh array of the requested element
    type and extents, appended to the heap, or raises [ValueError] or
    [MemoryError] and changes nothing. *)
Lemma numpy_empty_cases (pl : platform) (shape : list Z) (dtype : np_dtype)
    (s : pstate) :
  (exists buf,
     numpy_empty pl shape dtype s =
       (Return (VArr (length (heap s))),
        {| heap := (heap s ++ [buf])%list; wire := wire s; out := out s |}) /\
     arr_dtype buf = dtype /\ arr_shape buf = shape /\
     length (arr_data buf) = Z.to_nat (shape_size shape)) \/
  (exists e,
     numpy_empty pl shape dtype s = (Throw e, s) /\
     (e = ValueError \/ e = MemoryError)).
Proof.
  unfold numpy_empty, bind, alloc, ret, raise.
  repeat case_match; simplify_eq; try (right; eexists; split; eauto; fail).
  left. eexists. split; [reflexivity |]. cbn [arr_dtype arr_shape arr_data].
  rewrite length_map, length_seq. auto.
Qed.

Lemma numpy_empty_inv (pl : platform) (shape : list Z) (dtype : np_dtype)
    (s s1 : pstate) (data : value) :
  numpy_empty pl shape dtype s = (Return data, s1) ->
  exists buf,
    data = VArr (length (heap s)) /\
    s1 = {| heap := (heap s ++ [buf])%list; wire := wire s; out := out s |} /\
    arr_dtype buf = dtype /\ arr_shape buf = shape /\
    length (arr_data buf) = Z.to_nat (shape_size shape).
Proof.
  intros H.
  destruct (numpy_empty_cases pl shape dtype s)
    as [(buf & Hr & Hd & Hs & Hl) | (e & Hr & _)];
    rewrite Hr in H; simplify_eq.
  exists buf. auto.
Qed.

Lemma numpy_empty_throws (pl : platform) (shape : list Z) (dtype : np_dtype)
    (s s1 : pstate) (e : exn) :
  numpy_empty pl shape dtype s = (Throw e, s1) ->
  s1 = s /\ (e = ValueError \/ e = MemoryError).
Proof.
  intros H.
  destruct (numpy_empty_cases pl shape dtype s)
    as [(buf & Hr & _) | (e' & Hr & He)];
    rewrite Hr in H; simplify_eq.
  auto.
Qed.

Lemma numpy_empty_not_blocked (pl : platform) (shape : list Z)
    (dtype : np_dtype) (s s1 : pstate) :
  numpy_empty pl shape dtype s <> (Blocked, s1).
Proof.
  intros H.
  destruct (numpy_empty_cases pl shape dtype s)
    as [(buf & Hr & _) | (e' & Hr & He)];
    rewrite Hr in H; discriminate.
Qed.

(** Sufficient conditions for [numpy.empty] to return. *)
Lemma numpy_empty_returns (pl : platform) (shape : list Z) (dtype : np_dtype)
    (s : pstate) :
  forallb (fun n => 0 <=? n) shape = true ->
  (length shape <= maxdims pl)%nat ->
  forallb (fun n => n <=? intp_max pl) shape = true ->
  checked_nbytes shape dtype <= intp_max pl ->
  available pl (itemsize dtype * shape_size shape) = true ->
  numpy_empty pl shape dtype s =
    (Return (VArr (length (heap s))),
     {| heap := (heap s ++
                 [{| arr_dtype := dtype; arr_shape := shape;
                     arr_data :=
                       map (uninitialised pl)
                           (seq 0 (Z.to_nat (shape_size shape))) |}])%list;
        wire := wire s; out := out s |}).
Proof.
  intros Hneg Hdims Hext Hbytes Hmem. unfold numpy_empty.
  rewrite Hneg, Hext, Hmem.
  rewrite (proj2 (Nat.leb_le _ _) Hdims).
  rewrite (proj2 (Z.ltb_ge _ _) Hbytes).
  reflexivity.
Qed.

(** ** Transfer operations when the transport layer is unavailable *)




(** ** End-to-end transfer: the outputs of the Receive compute step *)

(** C1. The Receive compute step does not place its two outputs in the
    node's two output slots. Process B (rank 1) runs the compute step of
    the Receive node for peer 0, tag 7, element type [int64] and extents
    [(3,)] (shape pattern [(False,)]), handed one storage cell of one
    position for each of the two outputs the node declares, as the loader's
    compute step is. On no platform does the step return, and the second
    cell is never written. Once [numpy.empty] has returned the buffer, the
    request is stored in [out[0][0]] and [out[0][1] = data] raises
    [IndexError]: the buffer reaches no output, so the Wait that follows has
    no tensor to yield. *)
Theorem MPIRecv_perform_second_output_unwritten (pl : platform) :
  let env := import_module (Some {| comm_rank := 1 |}) in
  let self := {| recv_rank := 0; recv_tag := 7; recv_shape := [3];
                 recv_dtype := int64; recv_broadcastable := [false];
                 recv_info := (0, 7, "int64", [3]) |} in
  let s := {| heap := []; wire := []; out := [[VNone]; [VNone]] |} in
  MPIRecv_init 0 7 "int64" [3] = Ok self /\
  fst (MPIRecv_perform pl env self [] s) <> Return tt /\
  out (snd (MPIRecv_perform pl env self [] s)) !! 1%nat = Some [VNone] /\
  (forall data s1,
     numpy_empty pl [3] int64 s = (Return data, s1) ->
     MPIRecv_perform pl env self [] s
     = (Throw IndexError,
        {| heap := heap s1; wire := [];
           out := [[VReq (RecvRequest 0 1 7 0)]; [VNone]] |})).
Proof.
  cbn zeta. split; [reflexivity |].
  destruct (numpy_empty_cases pl [3] int64
              {| heap := []; wire := []; out := [[VNone]; [VNone]] |})
    as [(buf & Hr & _) | (e & Hr & _)]; cbn [heap wire out app length] in Hr.
  - assert (Hp : MPIRecv_perform pl (import_module (Some {| comm_rank := 1 |}))
                   {| recv_rank := 0; recv_tag := 7; recv_shape := [3];
                      recv_dtype := int64; recv_broadcastable := [false];
                      recv_info := (0, 7, "int64", [3]) |} []
                   {| heap := []; wire := []; out := [[VNone]; [VNone]] |}
                 = (Throw IndexError,
                    {| heap := [buf]; wire := [];
                       out := [[VReq (RecvRequest 0 1 7 0)]; [VNone]] |})).
    { unfold MPIRecv_perform. unfold bind at 1.
      cbn [recv_shape recv_dtype]. rewrite Hr. reflexivity. }
    rewrite Hp. split; [discriminate |]. split; [reflexivity |].
    intros data s1 Hne. rewrite Hr in Hne. injection Hne as <- <-.
    reflexivity.
  - assert (Hp : MPIRecv_perform pl (import_module (Some {| comm_rank := 1 |}))
                   {| recv_rank := 0; recv_tag := 7; recv_shape := [3];
                      recv_dtype := int64; recv_broadcastable := [false];
                      recv_info := (0, 7, "int64", [3]) |} []
                   {| heap := []; wire := []; out := [[VNone]; [VNone]] |}
                 = (Throw e,
                    {| heap := []; wire := []; out := [[VNone]; [VNone]] |})).
    { unfold MPIRecv_perform. unfold bind at 1.
      cbn [recv_shape recv_dtype]. rewrite Hr. reflexivity. }
    rewrite Hp. split; [discriminate |]. split; [reflexivity |].
    intros data s1 Hne. rewrite Hr in Hne. discriminate.
Qed.

Lemma MPIRecv_perform_second_output_unwritten_witness :
  MPIRecv_perform workstation (import_module (Some {| comm_rank := 1 |}))
    {| recv_rank := 0; recv_tag := 7; recv_shape := [3];
       recv_dtype := int64; recv_broadcastable := [false];
       recv_info := (0, 7, "int64", [3]) |} []
    {| heap := []; wire := []; out := [[VNone]; [VNone]] |}
  = (Throw IndexError,
     {| heap := [{| arr_dtype := int64; arr_shape := [3];
                    arr_data := [40; 41; 42] |}];
        wire := [];
        out := [[VReq (RecvRequest 0 1 7 0)]; [VNone]] |}).
Proof.
  apply (proj2 (proj2 (proj2
           (MPIRecv_perform_second_output_unwritten workstation)))
           (VArr 0)
           {| heap := [{| arr_dtype := int64; arr_shape := [3];
                          arr_data := [40; 41; 42] |}];
              wire := []; out := [[VNone]; [VNone]] |}).
  reflexivity.
Defined.

(* ===================================================================== *)
(** * Further properties of the operations *)
(* ===================================================================== *)

(** ** Equality and hashing over all operation classes *)

Lemma op_eq_true_iff (x y : op) :
  op_eq x y = true <->
  match x, y with
  | Op_LoadFromDisk a, Op_LoadFromDisk b => load_info a = load_info b
  | Op_MPIRecv a, Op_MPIRecv b => recv_info a = recv_info b
  | Op_MPIRecvWait _, Op_MPIRecvWait _ => True
  | Op_MPISend a, Op_MPISend b => send_info a = send_info b
  | Op_MPISendWait _, Op_MPISendWait _ => True
  | _, _ => False
  end.
Proof.
  destruct x, y;
    rewrite ?LoadFromDisk_eq_same, ?MPIRecv_eq_same, ?MPISend_eq_same,
            ?bool_decide_eq_true;
    try reflexivity;
    split; try discriminate; try contradiction; reflexivity.
Qed.

(** X1. [==] is an equivalence relation on the instances of the five
    operation classes (reflexive, symmetric, transitive), and two equal
    instances always belong to the same class. *)
Theorem op_eq_equivalence :
  (forall x, op_eq x x = true) /\
  (forall x y, op_eq x y = op_eq y x) /\
  (forall x y z, op_eq x y = true -> op_eq y z = true -> op_eq x z = true) /\
  (forall x y, op_eq x y = true -> type_of x = type_of y).
Proof.
  split; [| split; [| split]].
  - intros x. apply op_eq_true_iff. destruct x; reflexivity.
  - intros x y.
    destruct (op_eq x y) eqn:Hxy, (op_eq y x) eqn:Hyx; try reflexivity.
    + apply op_eq_true_iff in Hxy.
      assert (op_eq y x = true); [| congruence].
      apply op_eq_true_iff. destruct x, y; try contradiction; auto.
    + apply op_eq_true_iff in Hyx.
      assert (op_eq x y = true); [| congruence].
      apply op_eq_true_iff. destruct x, y; try contradiction; auto.
  - intros x y z Hxy%op_eq_true_iff Hyz%op_eq_true_iff.
    apply op_eq_true_iff.
    destruct x, y; try contradiction; destruct z; try contradiction;
      try exact I; congruence.
  - intros x y Hxy%op_eq_true_iff.
    destruct x, y; try contradiction; reflexivity.
Qed.

Lemma op_eq_equivalence_witness :
  op_eq (Op_MPISend (MPISend_init 1 7)) (Op_MPISend (MPISend_init 1 7)) = true
  /\ type_of (Op_MPISend (MPISend_init 1 7))
     = type_of (Op_MPISend (MPISend_init 1 7)).
Proof.
  destruct op_eq_equivalence as (Hrefl & _ & Htrans & Hty).
  assert (H : op_eq (Op_MPISend (MPISend_init 1 7))
                    (Op_MPISend (MPISend_init 1 7)) = true)
    by exact (Htrans _ _ _ (Hrefl _) (Hrefl _)).
  split; [exact H | exact (Hty _ _ H)].
Defined.

(** X2. For the three classes that hash [self._info] ([LoadFromDisk],
    [MPIRecv], [MPISend]), hashing never raises, and two equal instances
    have the same hash, whatever the base class adds and whatever the
    builtin [hash] computes. *)
Theorem info_hash_agrees_with_eq
    (Op_attrs : gmap string value) (py_hash : value -> Z) (x y : op) :
  type_of x <> MPIRecvWait_cls ->
  type_of x <> MPISendWait_cls ->
  op_eq x y = true ->
  exists h, op_hash Op_attrs py_hash x = Ok h /\
            op_hash Op_attrs py_hash y = Ok h.
Proof.
  intros Hr Hs Hxy%op_eq_true_iff.
  destruct x, y; try contradiction; cbn in Hr, Hs; try congruence;
    unfold op_hash, LoadFromDisk_hash, MPIRecv_hash, MPISend_hash,
           info_hash, getattr;
    match goal with
    | |- context [instance_dict ?o !! "_info"] =>
        change (instance_dict o !! "_info") with
          (Some (match o with
                 | Op_LoadFromDisk a => value_of_load_info (load_info a)
                 | Op_MPIRecv a => value_of_recv_info (recv_info a)
                 | Op_MPISend a => value_of_send_info (send_info a)
                 | _ => VNone
                 end))
    end.
  all: cbv beta iota; rewrite Hxy; eexists; split; reflexivity.
Qed.

Lemma info_hash_agrees_with_eq_witness :
  exists h,
    op_hash ∅ (fun _ => 42) (Op_MPISend (MPISend_init 1 7)) = Ok h /\
    op_hash ∅ (fun _ => 42) (Op_MPISend (MPISend_init 1 7)) = Ok h.
Proof.
  apply (info_hash_agrees_with_eq ∅ (fun _ => 42)
           (Op_MPISend (MPISend_init 1 7)) (Op_MPISend (MPISend_init 1 7)));
    [discriminate | discriminate | reflexivity].
Defined.

(** X3. On instances returned by the constructors, [==] holds exactly
    between instances with the same attribute values: two equal nodes agree
    on every attribute (not only on [_info]), so every method behaves the
    same on both. *)
Theorem op_eq_constructed (x y : op) :
  constructed x -> constructed y ->
  (op_eq x y = true <-> x = y).
Proof.
  intros Hx Hy. split.
  - intros Heq.
    destruct Hx as [d1 b1 m1 o1 H1 | r1 t1 d1 s1 o1 H1 | | r1 t1 |];
      destruct Hy as [d2 b2 m2 o2 H2 | r2 t2 d2 s2 o2 H2 | | r2 t2 |];
      try discriminate Heq; try reflexivity.
    + rewrite LoadFromDisk_eq_same, bool_decide_eq_true in Heq.
      unfold LoadFromDisk_init in H1, H2.
      destruct (numpy_dtype d1) eqn:E1; [| discriminate].
      destruct (numpy_dtype d2) eqn:E2; [| discriminate].
      destruct (negb _); [discriminate |].
      destruct (negb _); [discriminate |].
      injection H1 as <-. injection H2 as <-. cbn in Heq.
      injection Heq as -> -> ->. congruence.
    + rewrite MPIRecv_eq_same, bool_decide_eq_true in Heq.
      unfold MPIRecv_init in H1, H2.
      destruct (numpy_dtype d1) eqn:E1; [| discriminate].
      destruct (numpy_dtype d2) eqn:E2; [| discriminate].
      injection H1 as <-. injection H2 as <-. cbn in Heq.
      injection Heq as -> -> -> ->. congruence.
    + rewrite MPISend_eq_same, bool_decide_eq_true in Heq.
      cbn in Heq. injection Heq as -> ->. reflexivity.
  - intros <-. destruct x;
      rewrite ?LoadFromDisk_eq_same, ?MPIRecv_eq_same, ?MPISend_eq_same,
              ?bool_decide_eq_true; reflexivity.
Qed.

Lemma op_eq_constructed_witness :
  op_eq (Op_MPISend (MPISend_init 1 7)) (Op_MPISend (MPISend_init 1 7)) = true
  <-> Op_MPISend (MPISend_init 1 7) = Op_MPISend (MPISend_init 1 7).
Proof.
  apply (op_eq_constructed (Op_MPISend (MPISend_init 1 7))
                           (Op_MPISend (MPISend_init 1 7)));
    apply constructed_MPISend.
Defined.

(** ** The compute step of the loader, case by case *)

Ltac perform_cases :=
  unfold LoadFromDisk_perform, numpy_load, getitem, getitem_last,
         attr_dtype, setitem_out, bind, alloc, ret, raise in *;
  repeat case_match; simplify_eq; cbn [fst snd heap wire out] in *;
  repeat match goal with
         | H : (_ :: _) !! 0%nat = Some _ |- _ =>
             cbn [lookup list_lookup] in H
         end;
  simplify_eq.

Lemma not_npz_extension_inv (p : string) :
  ~ has_npz_extension p ->
  exists ext, last (split "." p) = Some ext /\ String.eqb ext "npz" = false.
Proof.
  intros Hp. unfold has_npz_extension in Hp.
  destruct (last (split "." p)) as [ext |] eqn:Hl.
  - exists ext. split; [reflexivity |].
    destruct (String.eqb ext "npz") eqn:He; [| reflexivity].
    apply String.eqb_eq in He. congruence.
  - apply last_None in Hl. destruct (split_not_nil _ _ Hl).
Qed.

(** X5. The paths on which the loader's compute step raises [ValueError]
    whatever the file system holds and whatever the loader's configuration,
    before anything is read or written, are exactly the paths that end in
    [.npz] and the bare name [npz] (a path without a dot is its own last
    component). On any other path the outcome depends on the file system:
    without the file, the step raises [IOError]. *)
Theorem LoadFromDisk_perform_ValueError_iff (p : string) :
  (forall fs self rest s,
     LoadFromDisk_perform fs self (VStr p :: rest) s = (Throw ValueError, s))
  <-> p = "npz" \/ exists pre, p = pre +:+ ".npz".
Proof.
  rewrite <- has_npz_extension_iff. split.
  - intros H.
    destruct (last (split "." p)) as [ext |] eqn:Hl;
      [| apply last_None in Hl; destruct (split_not_nil _ _ Hl)].
    destruct (String.eqb ext "npz") eqn:He.
    + apply String.eqb_eq in He. subst ext. exact Hl.
    + specialize (H (fun _ => None)
                    {| load_dtype := int64; load_broadcastable := [];
                       load_mmap_mode := None;
                       load_info := ("int64", [], None) |}
                    [] {| heap := []; wire := []; out := [] |}).
      unfold LoadFromDisk_perform, bind, getitem, getitem_last, ret,
             numpy_load, raise in H.
      cbn [lookup list_lookup] in H. rewrite Hl, He in H. discriminate.
  - intros H fs self rest s. unfold has_npz_extension in H.
    unfold LoadFromDisk_perform, bind, getitem, getitem_last, ret.
    cbn [lookup list_lookup]. rewrite H. reflexivity.
Qed.

Lemma LoadFromDisk_perform_ValueError_iff_witness :
  LoadFromDisk_perform
    (fun _ => Some (NpyFile {| arr_dtype := int64; arr_shape := [1];
                               arr_data := [9] |}))
    {| load_dtype := int64; load_broadcastable := [false];
       load_mmap_mode := None; load_info := ("int64", [false], None) |}
    [VStr "npz"] {| heap := []; wire := []; out := [[VNone]] |}
  = (Throw ValueError, {| heap := []; wire := []; out := [[VNone]] |}).
Proof.
  apply (proj2 (LoadFromDisk_perform_ValueError_iff "npz")).
  left. reflexivity.
Defined.

(** X6. On every input the loader's compute step never blocks, never
    touches the messages in flight, leaves every existing array as it is
    (the heap grows by at most the one array read), and writes to the output
    storage only when it returns normally. *)
Theorem LoadFromDisk_perform_frame
    (fs : string -> option file) (self : LoadFromDisk)
    (inp : list value) (s : pstate) :
  let r := LoadFromDisk_perform fs self inp s in
  wire (snd r) = wire s /\
  (heap (snd r) = heap s \/ exists a, heap (snd r) = (heap s ++ [a])%list) /\
  (fst r <> Return tt -> out (snd r) = out s) /\
  fst r <> Blocked.
Proof.
  cbn zeta.
  perform_cases;
    repeat split; try discriminate; try congruence; eauto.
Qed.

Lemma LoadFromDisk_perform_frame_witness :
  out (snd (LoadFromDisk_perform (fun _ => None)
              {| load_dtype := int64; load_broadcastable := [false];
                 load_mmap_mode := None;
                 load_info := ("int64", [false], None) |}
              [VStr "missing.npy"]
              {| heap := []; wire := []; out := [[VNone]] |}))
  = [[VNone]].
Proof.
  apply (proj1 (proj2 (proj2 (LoadFromDisk_perform_frame (fun _ => None)
           {| load_dtype := int64; load_broadcastable := [false];
              load_mmap_mode := None; load_info := ("int64", [false], None) |}
           [VStr "missing.npy"]
           {| heap := []; wire := []; out := [[VNone]] |})))).
  vm_compute. discriminate.
Defined.

(** X7. Whenever the loader's compute step returns normally, its first
    input was a string naming a single-array file, the array of that file
    has been added to the heap unchanged, [out[0][0]] refers to it, and its
    element type is the loader's, which is also the element type of the
    output that [make_node] declares: the value computed always has the
    declared element type. *)
Theorem LoadFromDisk_perform_sound
    (fs : string -> option file) (self : LoadFromDisk)
    (inp : list value) (s s' : pstate) :
  LoadFromDisk_perform fs self inp s = (Return tt, s') ->
  exists p a cell,
    inp !! 0%nat = Some (VStr p) /\
    fs p = Some (NpyFile a) /\
    heap s' = (heap s ++ [a])%list /\
    out s' !! 0%nat = Some (VArr (length (heap s)) :: cell) /\
    heap s' !! length (heap s) = Some a /\
    arr_dtype a = load_dtype self /\
    forall path,
      map type_of_variable (apply_outputs (LoadFromDisk_make_node self path))
      = [TensorType (arr_dtype a) (load_broadcastable self)].
Proof.
  intros H. perform_cases.
  match goal with
  | H : (_ ++ [_])%list !! _ = Some ?n,
    G : negb (bool_decide (arr_dtype ?n = _)) = false |- _ =>
      rewrite list_lookup_middle in H by reflexivity;
      apply negb_false_iff, bool_decide_eq_true in G
  end.
  simplify_eq.
  match goal with
  | Hout : out _ !! 0%nat = Some ?c |- _ =>
      destruct c as [| v0 cell]; [cbn in *; lia |]
  end.
  eexists _, _, cell. repeat split; eauto.
  - rewrite list_lookup_insert_eq by (eapply lookup_lt_Some; eauto).
    reflexivity.
  - apply list_lookup_middle. reflexivity.
  - intros path. cbn. congruence.
Qed.

Lemma LoadFromDisk_perform_sound_witness :
  let arr := {| arr_dtype := int64; arr_shape := [2]; arr_data := [4; 5] |} in
  let self := {| load_dtype := int64; load_broadcastable := [false];
                 load_mmap_mode := None;
                 load_info := ("int64", [false], None) |} in
  exists p a cell,
    [VStr "v.npy"] !! 0%nat = Some (VStr p) /\
    (fun _ : string => Some (NpyFile arr)) p = Some (NpyFile a) /\
    [arr] = ([] ++ [a])%list /\
    [[VArr 0]] !! 0%nat = Some (VArr 0 :: cell) /\
    [arr] !! 0%nat = Some a /\
    arr_dtype a = load_dtype self /\
    forall path,
      map type_of_variable (apply_outputs (LoadFromDisk_make_node self path))
      = [TensorType (arr_dtype a) (load_broadcastable self)].
Proof.
  intros arr self.
  apply (LoadFromDisk_perform_sound (fun _ => Some (NpyFile arr)) self
           [VStr "v.npy"] {| heap := []; wire := []; out := [[VNone]] |}
           {| heap := [arr]; wire := []; out := [[VArr 0]] |}).
  reflexivity.
Defined.

(** X8. The outcome of the loader's compute step depends on a single-array
    file only through its stored element type: files that differ in extents
    or elements lead to the same return or the same exception, so the shape
    of the loaded array is never checked against the loader's shape
    pattern. *)
Theorem LoadFromDisk_perform_ignores_shape
    (fs fs' : string -> option file) (self : LoadFromDisk)
    (p : string) (rest : list value) (s : pstate) (a a' : ndarray) :
  fs p = Some (NpyFile a) ->
  fs' p = Some (NpyFile a') ->
  arr_dtype a = arr_dtype a' ->
  fst (LoadFromDisk_perform fs self (VStr p :: rest) s)
  = fst (LoadFromDisk_perform fs' self (VStr p :: rest) s).
Proof.
  intros Hfs Hfs' Hty.
  unfold LoadFromDisk_perform, numpy_load, getitem, getitem_last,
         attr_dtype, setitem_out, bind, alloc, ret, raise.
  cbn [lookup list_lookup].
  destruct (last (split "." p)) as [ext |]; [| reflexivity].
  destruct (String.eqb ext "npz"); [reflexivity |].
  rewrite Hfs, Hfs'.
  cbn [heap out]. rewrite !list_lookup_middle by reflexivity.
  rewrite Hty.
  destruct (negb (bool_decide (arr_dtype a' = load_dtype self)));
    cbn [out heap wire fst]; [reflexivity |].
  destruct (out s !! 0%nat) as [cell |]; [| reflexivity].
  destruct (decide (0 < length cell)%nat); reflexivity.
Qed.

Lemma LoadFromDisk_perform_ignores_shape_witness :
  let self := {| load_dtype := int64; load_broadcastable := [false];
                 load_mmap_mode := None;
                 load_info := ("int64", [false], None) |} in
  let s := {| heap := []; wire := []; out := [[VNone]] |} in
  fst (LoadFromDisk_perform
         (fun _ => Some (NpyFile {| arr_dtype := int64; arr_shape := [2];
                                    arr_data := [4; 5] |}))
         self [VStr "v.npy"] s)
  = fst (LoadFromDisk_perform
           (fun _ => Some (NpyFile {| arr_dtype := int64; arr_shape := [2; 3];
                                      arr_data := [1; 2; 3; 4; 5; 6] |}))
           self [VStr "v.npy"] s).
Proof.
  intros self s.
  apply (LoadFromDisk_perform_ignores_shape _ _ self "v.npy" [] s
           {| arr_dtype := int64; arr_shape := [2]; arr_data := [4; 5] |}
           {| arr_dtype := int64; arr_shape := [2; 3];
              arr_data := [1; 2; 3; 4; 5; 6] |});
    reflexivity.
Defined.

(** X9. The remaining failures of the loader's compute step: no input
    raises [IndexError]; a first input that is not a string raises
    [AttributeError]; a missing file raises [IOError]; a multi-array archive
    under a name that passes the extension test raises [AttributeError] (the
    archive object has no element type); in all four nothing is changed.
    When the output storage has no first entry, or an empty one, the array
    has already been read when [IndexError] is raised. *)
Theorem LoadFromDisk_perform_error_cases
    (fs : string -> option file) (self : LoadFromDisk) (s : pstate) :
  LoadFromDisk_perform fs self [] s = (Throw IndexError, s) /\
  (forall v rest,
     (forall p, v <> VStr p) ->
     LoadFromDisk_perform fs self (v :: rest) s = (Throw AttributeError, s)) /\
  (forall p rest,
     ~ has_npz_extension p -> fs p = None ->
     LoadFromDisk_perform fs self (VStr p :: rest) s = (Throw IOError, s)) /\
  (forall p rest,
     ~ has_npz_extension p -> fs p = Some NpzFile ->
     LoadFromDisk_perform fs self (VStr p :: rest) s
       = (Throw AttributeError, s)) /\
  (forall p a rest,
     ~ has_npz_extension p -> fs p = Some (NpyFile a) ->
     arr_dtype a = load_dtype self ->
     out s !! 0%nat = None \/ out s !! 0%nat = Some [] ->
     LoadFromDisk_perform fs self (VStr p :: rest) s
       = (Throw IndexError,
          {| heap := (heap s ++ [a])%list; wire := wire s; out := out s |})).
Proof.
  split; [reflexivity |]. split; [| split; [| split]].
  - intros v rest Hv. destruct v; try reflexivity. destruct (Hv s0 eq_refl).
  - intros p rest Hp Hfs.
    destruct (not_npz_extension_inv p Hp) as (ext & Hl & He).
    unfold LoadFromDisk_perform, numpy_load, getitem, getitem_last, bind, ret.
    cbn [lookup list_lookup]. rewrite Hl, He, Hfs. reflexivity.
  - intros p rest Hp Hfs.
    destruct (not_npz_extension_inv p Hp) as (ext & Hl & He).
    unfold LoadFromDisk_perform, numpy_load, getitem, getitem_last, bind, ret.
    cbn [lookup list_lookup]. rewrite Hl, He, Hfs. reflexivity.
  - intros p a rest Hp Hfs Hty Hout.
    destruct (not_npz_extension_inv p Hp) as (ext & Hl & He).
    unfold LoadFromDisk_perform, numpy_load, getitem, getitem_last,
           attr_dtype, setitem_out, bind, alloc, ret.
    cbn [lookup list_lookup]. rewrite Hl, He, Hfs.
    cbn [heap out]. rewrite list_lookup_middle by reflexivity.
    rewrite bool_decide_eq_true_2 by assumption. cbn [negb out heap wire].
    destruct Hout as [-> | ->]; reflexivity.
Qed.

Lemma LoadFromDisk_perform_error_cases_witness :
  let self := {| load_dtype := int64; load_broadcastable := [false];
                 load_mmap_mode := None;
                 load_info := ("int64", [false], None) |} in
  let s := {| heap := []; wire := []; out := [[VNone]] |} in
  LoadFromDisk_perform (fun _ => None) self [VNone] s
    = (Throw AttributeError, s) /\
  LoadFromDisk_perform (fun _ => None) self [VStr "x.npy"] s
    = (Throw IOError, s) /\
  LoadFromDisk_perform (fun _ => Some NpzFile) self [VStr "x.npy"] s
    = (Throw AttributeError, s).
Proof.
  intros self s.
  assert (Hx : ~ has_npz_extension "x.npy")
    by (unfold has_npz_extension; vm_compute; discriminate).
  split; [| split].
  - apply (proj1 (proj2 (LoadFromDisk_perform_error_cases
                           (fun _ => None) self s))).
    discriminate.
  - apply (proj1 (proj2 (proj2 (LoadFromDisk_perform_error_cases
                                  (fun _ => None) self s))));
      [exact Hx | reflexivity].
  - apply (proj1 (proj2 (proj2 (proj2 (LoadFromDisk_perform_error_cases
                                         (fun _ => Some NpzFile) self s)))));
      [exact Hx | reflexivity].
Defined.

(** ** The compute steps of the transfer operations, case by case *)

Ltac transfer_cases :=
  unfold MPIRecv_perform, MPISend_perform, MPIRecvWait_perform,
         MPISendWait_perform, numpy_empty, global_comm, Isend, Irecv, wait,
         getitem, setitem_out, bind, alloc, ret, raise in *;
  repeat case_match; simplify_eq; cbn [fst snd heap wire out] in *.

(** X10. When [numpy.empty] has returned the buffer, the transport layer is
    available and the first output entry has at least two positions, the
    Receive compute step returns: the heap has grown by exactly the fresh
    buffer, which has the node's element type and extents and
    [product(shape)] elements (whatever they hold); [out[0][0]] is a request
    for the channel (node's rank, own rank, node's tag) registered with that
    buffer, and [out[0][1]] is the buffer itself; the messages in flight and
    the other positions are untouched. *)
Theorem MPIRecv_perform_returns
    (pl : platform) (env : module_env) (c : Comm) (self : MPIRecv)
    (inp : list (list value)) (s s1 : pstate) (data : value)
    (v0 v1 : value) (cell : list value) :
  numpy_empty pl (recv_shape self) (recv_dtype self) s = (Return data, s1) ->
  comm env = Some c ->
  out s !! 0%nat = Some (v0 :: v1 :: cell) ->
  exists buf,
    arr_dtype buf = recv_dtype self /\
    arr_shape buf = recv_shape self /\
    length (arr_data buf) = Z.to_nat (shape_size (recv_shape self)) /\
    data = VArr (length (heap s)) /\
    heap s1 = (heap s ++ [buf])%list /\
    MPIRecv_perform pl env self inp s
    = (Return tt,
       {| heap := (heap s ++ [buf])%list;
          wire := wire s;
          out := <[0%nat :=
                     VReq (RecvRequest (recv_rank self) (comm_rank c)
                                       (recv_tag self) (length (heap s)))
                     :: VArr (length (heap s)) :: cell]> (out s) |}).
Proof.
  intros Hne Hcomm Hout.
  destruct (numpy_empty_inv _ _ _ _ _ _ Hne)
    as (buf & -> & -> & Hd & Hs & Hl).
  exists buf. repeat (split; [assumption || reflexivity |]).
  unfold MPIRecv_perform. unfold bind at 1. rewrite Hne.
  unfold global_comm, Irecv, setitem_out, bind, ret. rewrite Hcomm.
  cbn [out heap wire]. rewrite Hout. cbn [length].
  destruct (decide (0 < S (S (length cell)))%nat); [| lia].
  cbn [out heap wire].
  rewrite list_lookup_insert_eq by (eapply lookup_lt_Some; eauto).
  cbn [length].
  destruct (decide (1 < S (S (length cell)))%nat); [| lia].
  rewrite list_insert_insert_eq. reflexivity.
Qed.

Lemma MPIRecv_perform_returns_witness :
  exists buf,
    arr_dtype buf = float64 /\
    arr_shape buf = [2; 2] /\
    length (arr_data buf) = 4%nat /\
    MPIRecv_perform workstation (import_module (Some {| comm_rank := 1 |}))
      {| recv_rank := 0; recv_tag := 7; recv_shape := [2; 2];
         recv_dtype := float64; recv_broadcastable := [false; false];
         recv_info := (0, 7, "float64", [2; 2]) |}
      [] {| heap := []; wire := []; out := [[VNone; VNone]] |}
    = (Return tt,
       {| heap := [buf]; wire := [];
          out := [[VReq (RecvRequest 0 1 7 0); VArr 0]] |}).
Proof.
  destruct (MPIRecv_perform_returns workstation
              (import_module (Some {| comm_rank := 1 |}))
              {| comm_rank := 1 |}
              {| recv_rank := 0; recv_tag := 7; recv_shape := [2; 2];
                 recv_dtype := float64; recv_broadcastable := [false; false];
                 recv_info := (0, 7, "float64", [2; 2]) |}
              [] {| heap := []; wire := []; out := [[VNone; VNone]] |}
              {| heap := [{| arr_dtype := float64; arr_shape := [2; 2];
                             arr_data := [40; 41; 42; 43] |}];
                 wire := []; out := [[VNone; VNone]] |}
              (VArr 0) VNone VNone [] eq_refl eq_refl eq_refl)
    as (buf & Hd & Hs & Hl & _ & _ & Hp).
  exists buf. auto.
Defined.

(** X11. With a first output entry of a single position (the layout the
    loader's compute step writes to), the Receive compute step never
    returns. When [numpy.empty] has returned the buffer and the transport
    layer is available, it raises [IndexError] on [out[0][1] = data], after
    it has stored the request in [out[0][0]]; the buffer is in no output
    position. *)
Theorem MPIRecv_perform_single_position_raises
    (pl : platform) (env : module_env) (self : MPIRecv)
    (inp : list (list value)) (s : pstate) (v0 : value) :
  out s !! 0%nat = Some [v0] ->
  fst (MPIRecv_perform pl env self inp s) <> Return tt /\
  (forall c data s1,
     numpy_empty pl (recv_shape self) (recv_dtype self) s
       = (Return data, s1) ->
     comm env = Some c ->
     MPIRecv_perform pl env self inp s
     = (Throw IndexError,
        {| heap := heap s1;
           wire := wire s;
           out := <[0%nat :=
                      [VReq (RecvRequest (recv_rank self) (comm_rank c)
                                         (recv_tag self) (length (heap s)))]]>
                    (out s) |})).
Proof.
  intros Hout.
  assert (Hlt : (0 < length (out s))%nat) by (eapply lookup_lt_Some; eauto).
  destruct (numpy_empty_cases pl (recv_shape self) (recv_dtype self) s)
    as [(buf & Hr & _) | (e & Hr & _)].
  - destruct (comm env) as [c |] eqn:Hcomm.
    + assert (Hp : MPIRecv_perform pl env self inp s
                   = (Throw IndexError,
                      {| heap := (heap s ++ [buf])%list;
                         wire := wire s;
                         out := <[0%nat :=
                                    [VReq (RecvRequest (recv_rank self)
                                             (comm_rank c) (recv_tag self)
                                             (length (heap s)))]]>
                                  (out s) |})).
      { unfold MPIRecv_perform. unfold bind at 1. rewrite Hr.
        unfold global_comm, Irecv, setitem_out, bind, ret. rewrite Hcomm.
        cbn [out heap wire]. rewrite Hout. cbn [length].
        destruct (decide (0 < 1)%nat); [| lia].
        cbn [out heap wire].
        rewrite list_lookup_insert_eq by assumption.
        cbn [length].
        destruct (decide (1 < 1)%nat); [lia |].
        reflexivity. }
      rewrite Hp. split; [discriminate |].
      intros c' data s1 Hne [= <-]. rewrite Hr in Hne.
      injection Hne as <- <-. reflexivity.
    + assert (Hp : fst (MPIRecv_perform pl env self inp s) = Throw NameError).
      { unfold MPIRecv_perform. unfold bind at 1. rewrite Hr.
        unfold global_comm, bind. rewrite Hcomm. reflexivity. }
      rewrite Hp. split; [discriminate |]. intros c' data s1 _ [=].
  - assert (Hp : fst (MPIRecv_perform pl env self inp s) = Throw e).
    { unfold MPIRecv_perform. unfold bind at 1. rewrite Hr. reflexivity. }
    rewrite Hp. split; [discriminate |].
    intros c' data s1 Hne. rewrite Hr in Hne. discriminate.
Qed.

Lemma MPIRecv_perform_single_position_raises_witness :
  MPIRecv_perform workstation (import_module (Some {| comm_rank := 1 |}))
    {| recv_rank := 0; recv_tag := 7; recv_shape := [2];
       recv_dtype := float32; recv_broadcastable := [false];
       recv_info := (0, 7, "float32", [2]) |}
    [] {| heap := []; wire := []; out := [[VNone]] |}
  = (Throw IndexError,
     {| heap := [{| arr_dtype := float32; arr_shape := [2];
                    arr_data := [40; 41] |}];
        wire := []; out := [[VReq (RecvRequest 0 1 7 0)]] |}).
Proof.
  apply (proj2 (MPIRecv_perform_single_position_raises workstation
                  (import_module (Some {| comm_rank := 1 |}))
                  {| recv_rank := 0; recv_tag := 7; recv_shape := [2];
                     recv_dtype := float32; recv_broadcastable := [false];
                     recv_info := (0, 7, "float32", [2]) |}
                  [] {| heap := []; wire := []; out := [[VNone]] |}
                  VNone eq_refl)
           {| comm_rank := 1 |} (VArr 0)
           {| heap := [{| arr_dtype := float32; arr_shape := [2];
                          arr_data := [40; 41] |}];
              wire := []; out := [[VNone]] |}
           eq_refl eq_refl).
Defined.

(** X12. The Receive constructor validates nothing but the element-type
    identifier: any rank, tag and shape are accepted. A shape with a
    negative extent is only rejected when the compute step runs, which then
    raises [ValueError] before anything is allocated, requested or
    written. *)
Theorem MPIRecv_shape_checked_late
    (rank tag : Z) (dtype : string) (d : np_dtype) (shape : list Z) :
  numpy_dtype dtype = Some d ->
  exists self,
    MPIRecv_init rank tag dtype shape = Ok self /\
    recv_shape self = shape /\
    (forallb (fun n => 0 <=? n) shape = false ->
     forall pl env inp s,
       MPIRecv_perform pl env self inp s = (Throw ValueError, s)).
Proof.
  intros Hd. unfold MPIRecv_init. rewrite Hd.
  eexists. split; [reflexivity |]. split; [reflexivity |].
  intros Hneg pl env inp s.
  unfold MPIRecv_perform, numpy_empty, bind. cbn [recv_shape].
  rewrite Hneg. reflexivity.
Qed.

Lemma MPIRecv_shape_checked_late_witness :
  exists self,
    MPIRecv_init 0 7 "int64" [3; -1] = Ok self /\
    recv_shape self = [3; -1] /\
    (forallb (fun n => 0 <=? n) [3; -1] = false ->
     forall pl env inp s,
       MPIRecv_perform pl env self inp s = (Throw ValueError, s)).
Proof.
  apply (MPIRecv_shape_checked_late 0 7 "int64" int64 [3; -1]).
  reflexivity.
Defined.

(** X13. With the transport layer available, the Send compute step handed
    an array at [inp[0][0]] and a non-empty first output entry returns: it
    has posted exactly one message, from its own rank to the node's rank
    with the node's tag, carrying the array's elements as they are at that
    moment; it has stored the request at [out[0][0]] and changed no
    array. *)
Theorem MPISend_perform_returns
    (env : module_env) (c : Comm) (self : MPISend)
    (a : nat) (arr : ndarray) (cell0 : list value)
    (rest : list (list value)) (s : pstate)
    (v0 : value) (cell : list value) :
  comm env = Some c ->
  heap s !! a = Some arr ->
  out s !! 0%nat = Some (v0 :: cell) ->
  MPISend_perform env self ((VArr a :: cell0) :: rest) s
  = (Return tt,
     {| heap := heap s;
        wire := (wire s ++
                 [{| msg_src := comm_rank c; msg_dst := send_rank self;
                     msg_tag := send_tag self;
                     msg_data := arr_data arr |}])%list;
        out := <[0%nat := VReq SendRequest :: cell]> (out s) |}).
Proof.
  intros Hcomm Hheap Hout.
  unfold MPISend_perform, global_comm, Isend, getitem, setitem_out, bind, ret.
  cbn [lookup list_lookup]. rewrite Hcomm, Hheap.
  cbn [out heap wire]. rewrite Hout. cbn [length].
  destruct (decide (0 < S (length cell))%nat); [| lia].
  reflexivity.
Qed.

Lemma MPISend_perform_returns_witness :
  let arr := {| arr_dtype := int64; arr_shape := [2]; arr_data := [8; 9] |} in
  MPISend_perform (import_module (Some {| comm_rank := 0 |}))
    (MPISend_init 1 7) [[VArr 0]]
    {| heap := [arr]; wire := []; out := [[VNone]] |}
  = (Return tt,
     {| heap := [arr];
        wire := [{| msg_src := 0; msg_dst := 1; msg_tag := 7;
                    msg_data := [8; 9] |}];
        out := [[VReq SendRequest]] |}).
Proof.
  intros arr.
  apply (MPISend_perform_returns (import_module (Some {| comm_rank := 0 |}))
           {| comm_rank := 0 |} (MPISend_init 1 7) 0%nat arr [] []
           {| heap := [arr]; wire := []; out := [[VNone]] |} VNone []);
    reflexivity.
Defined.

(** X14. Failures of the Send compute step: without a first input, or with
    an empty one, it raises [IndexError] and changes nothing; with the
    transport layer available and something that is not an array at
    [inp[0][0]] it raises [TypeError] and posts nothing; and when the output
    storage has no first entry, or an empty one, the message has already
    been posted when [IndexError] is raised, so the request is lost. *)
Theorem MPISend_perform_error_cases
    (env : module_env) (self : MPISend) (s : pstate) :
  MPISend_perform env self [] s = (Throw IndexError, s) /\
  (forall rest, MPISend_perform env self ([] :: rest) s
                = (Throw IndexError, s)) /\
  (forall c data cell0 rest,
     comm env = Some c ->
     (forall a, data <> VArr a) ->
     MPISend_perform env self ((data :: cell0) :: rest) s
       = (Throw TypeError, s)) /\
  (forall c a arr cell0 rest,
     comm env = Some c ->
     heap s !! a = Some arr ->
     out s !! 0%nat = None \/ out s !! 0%nat = Some [] ->
     MPISend_perform env self ((VArr a :: cell0) :: rest) s
       = (Throw IndexError,
          {| heap := heap s;
             wire := (wire s ++
                      [{| msg_src := comm_rank c; msg_dst := send_rank self;
                          msg_tag := send_tag self;
                          msg_data := arr_data arr |}])%list;
             out := out s |})).
Proof.
  split; [reflexivity |]. split; [reflexivity |]. split.
  - intros c data cell0 rest Hcomm Hdata.
    unfold MPISend_perform, global_comm, Isend, getitem, bind, ret, raise.
    cbn [lookup list_lookup]. rewrite Hcomm.
    destruct data; try reflexivity. destruct (Hdata addr eq_refl).
  - intros c a arr cell0 rest Hcomm Hheap Hout.
    unfold MPISend_perform, global_comm, Isend, getitem, setitem_out, bind, ret.
    cbn [lookup list_lookup]. rewrite Hcomm, Hheap. cbn [out heap wire].
    destruct Hout as [-> | ->]; reflexivity.
Qed.

Lemma MPISend_perform_error_cases_witness :
  let env := import_module (Some {| comm_rank := 0 |}) in
  let s := {| heap := []; wire := []; out := [[VNone]] |} in
  MPISend_perform env (MPISend_init 1 7) [[VNone]] s = (Throw TypeError, s).
Proof.
  intros env s.
  apply (proj1 (proj2 (proj2 (MPISend_perform_error_cases env
                                (MPISend_init 1 7) s)))
           {| comm_rank := 0 |} VNone [] []);
    [reflexivity | discriminate].
Defined.

(** X15. The two start operations never block. On every input the Receive
    compute step leaves the messages in flight untouched and allocates at
    most one array; the Send compute step changes no array and posts at most
    one message. *)
Theorem start_operations_never_block
    (pl : platform) (env : module_env) (inp : list (list value))
    (s : pstate) :
  (forall self,
     let r := MPIRecv_perform pl env self inp s in
     fst r <> Blocked /\ wire (snd r) = wire s /\
     (heap (snd r) = heap s \/ exists b, heap (snd r) = (heap s ++ [b])%list))
  /\
  (forall self,
     let r := MPISend_perform env self inp s in
     fst r <> Blocked /\ heap (snd r) = heap s /\
     (wire (snd r) = wire s \/ exists m, wire (snd r) = (wire s ++ [m])%list)).
Proof.
  split; intros self; cbn zeta.
  - transfer_cases; repeat split; try discriminate; eauto.
  - transfer_cases; repeat split; try discriminate; eauto.
Qed.





(** X18. After the module-level [try]/[except], [mpi_enabled] is [True]
    exactly when the name [comm] is bound. When it is [True], no input makes
    the Send or Receive compute step raise [NameError]; when it is [False],
    the Send compute step raises [NameError] as soon as it has read
    [inp[0][0]]. *)
Theorem mpi_enabled_guards_comm (pl : platform) (mpi4py : option Comm) :
  let env := import_module mpi4py in
  (mpi_enabled env = true <-> exists c, comm env = Some c) /\
  (mpi_enabled env = true ->
   forall inp s,
     (forall self,
        fst (MPIRecv_perform pl env self inp s) <> Throw NameError) /\
     (forall self, fst (MPISend_perform env self inp s) <> Throw NameError)) /\
  (mpi_enabled env = false ->
   forall data cell rest s self,
     MPISend_perform env self ((data :: cell) :: rest) s
     = (Throw NameError, s)).
Proof.
  destruct mpi4py as [c |]; cbn zeta; cbn [import_module mpi_enabled comm].
  - split; [split; eauto |]. split; [| discriminate].
    intros _ inp s. split; intros self.
    + transfer_cases; discriminate.
    + transfer_cases; discriminate.
  - split; [split; [discriminate | intros [c [=]]] |].
    split; [discriminate |]. reflexivity.
Qed.

Lemma mpi_enabled_guards_comm_witness :
  fst (MPIRecv_perform workstation
         (import_module (Some {| comm_rank := 1 |}))
         {| recv_rank := 0; recv_tag := 7; recv_shape := [3];
            recv_dtype := int64; recv_broadcastable := [false];
            recv_info := (0, 7, "int64", [3]) |}
         [] {| heap := []; wire := []; out := [] |})
  <> Throw NameError.
Proof.
  apply (proj1 (proj1 (proj2 (mpi_enabled_guards_comm workstation
                                (Some {| comm_rank := 1 |}))) eq_refl
                  [] {| heap := []; wire := []; out := [] |})).
Defined.

(** ** make_node and __str__ of the transfer operations *)

Lemma theano_unbound env : global_name env "theano" = Raise NameError.
Proof.
  unfold global_name, module_globals.
  destruct (comm env); vm_compute; reflexivity.
Qed.

Lemma gof_tensor_bound env :
  global_name env "gof" = Ok tt /\ global_name env "tensor" = Ok tt.
Proof.
  unfold global_name, module_globals.
  destruct (comm env); vm_compute; split; reflexivity.
Qed.

(** X19. None of the four transfer operations can build a graph node.
    [make_node] of [MPIRecv], [MPIRecvWait] and [MPISendWait] raises
    [NameError] on every instance, with or without the transport layer: the
    module never binds the name [theano] that they evaluate. [make_node] of
    [MPISend] raises [AttributeError] before that: it reads [self.dtype],
    which the Send constructor does not set (provided the base class does
    not bind it). *)
Theorem transfer_make_node_raises
    (Op_attrs : gmap string value) (env : module_env) :
  (forall self, MPIRecv_make_node Op_attrs env self = Raise NameError) /\
  (forall self, MPIRecvWait_make_node Op_attrs env self = Raise NameError) /\
  (forall self, MPISendWait_make_node env self = Raise NameError) /\
  (Op_attrs !! "dtype" = None ->
   forall self, MPISend_make_node Op_attrs env self = Raise AttributeError).
Proof.
  destruct (gof_tensor_bound env) as [Hgof Htensor].
  pose proof (theano_unbound env) as Htheano.
  repeat split.
  - intros self. unfold MPIRecv_make_node. rewrite Hgof, Htheano. reflexivity.
  - intros self. unfold MPIRecvWait_make_node.
    rewrite Hgof, Htheano. reflexivity.
  - intros self. unfold MPISendWait_make_node.
    rewrite Hgof, Htheano. reflexivity.
  - intros Hbase self. unfold MPISend_make_node.
    rewrite Hgof, Htensor. cbn [rbind]. unfold getattr.
    assert (Hi : instance_dict (Op_MPISend self) !! "dtype" = None)
      by reflexivity.
    assert (Hc : class_dict (type_of (Op_MPISend self)) !! "dtype" = None)
      by (vm_compute; reflexivity).
    rewrite Hi, Hc, Hbase. reflexivity.
Qed.

Lemma transfer_make_node_raises_witness :
  MPISend_make_node ∅ (import_module (Some {| comm_rank := 0 |}))
    (MPISend_init 1 7)
  = Raise AttributeError.
Proof.
  apply (proj2 (proj2 (proj2 (transfer_make_node_raises ∅
           (import_module (Some {| comm_rank := 0 |})))))).
  reflexivity.
Defined.

(** X20. [MPIRecv.__str__] raises [TypeError] on every Receive node: its
    format string has five conversions and [_info] has four elements. *)
Theorem MPIRecv_str_raises (self : MPIRecv) :
  MPIRecv_str self = Raise TypeError.
Proof.
  unfold MPIRecv_str. destruct (recv_info self) as [[[rank tag] dtype] shape].
  cbn [format Ascii.eqb Bool.eqb].
  repeat (cbn [prepend]; unfold prepend at 1).
  reflexivity.
Qed.

(** X21. [__str__] of a Send node returns [MPISend{dest: R, tag: T}] with
    the decimal rank and tag; [__str__] of a constructed loader returns
    [Load{dtype:D, broadcastable:B, mmep:M}] with the identifier as given,
    the pattern written as a tuple, and [None] or the mode. Neither
    raises. *)
Theorem str_of_Send_and_Load :
  (forall rank tag,
     MPISend_str (MPISend_init rank tag)
     = Ok ("MPISend{dest: " +:+ pretty rank +:+ ", tag: " +:+ pretty tag
           +:+ "}")) /\
  (forall dtype broadcastable mmap_mode o,
     LoadFromDisk_init dtype broadcastable mmap_mode = Ok o ->
     LoadFromDisk_str o
     = Ok ("Load{dtype:" +:+ dtype +:+ ", broadcastable:"
           +:+ str_of_tuple (map str_of_bool broadcastable) +:+ ", mmep:"
           +:+ match mmap_mode with None => "None" | Some m => m end
           +:+ "}")).
Proof.
  split.
  - intros rank tag. reflexivity.
  - intros dtype b m o Ho.
    unfold LoadFromDisk_init in Ho.
    destruct (numpy_dtype dtype); [| discriminate].
    destruct (negb _); [discriminate |]. injection Ho as <-.
    destruct m; reflexivity.
Qed.

Lemma str_of_Send_and_Load_witness :
  LoadFromDisk_str
    {| load_dtype := int64; load_broadcastable := [false];
       load_mmap_mode := Some "c";
       load_info := ("int64", [false], Some "c") |}
  = Ok "Load{dtype:int64, broadcastable:(False,), mmep:c}".
Proof.
  apply (proj2 str_of_Send_and_Load "int64" [false] (Some "c")).
  reflexivity.
Defined.

Lemma append_cons a s t : String a s +:+ t = String a (s +:+ t).
Proof. reflexivity. Qed.

Lemma append_nil t : "" +:+ t = t.
Proof. reflexivity. Qed.

Lemma split_at_first (c : ascii) (p q r1 r2 : string) :
  occurs c p = false -> occurs c q = false ->
  p +:+ String c r1 = q +:+ String c r2 ->
  p = q /\ r1 = r2.
Proof.
  revert q. induction p as [| a p IH]; intros [| b q] Hp Hq.
  - rewrite !append_nil. intros [= ->]. auto.
  - rewrite append_nil, append_cons. intros [= <- _].
    cbn in Hq. rewrite Ascii.eqb_refl in Hq. discriminate.
  - rewrite append_nil, append_cons. intros [= -> _].
    cbn in Hp. rewrite Ascii.eqb_refl in Hp. discriminate.
  - rewrite !append_cons. intros [= -> H].
    cbn in Hp, Hq. apply orb_false_iff in Hp as [_ Hp].
    apply orb_false_iff in Hq as [_ Hq].
    destruct (IH q Hp Hq H) as [-> ->]. auto.
Qed.

Lemma pretty_N_char_digit (x : N) (c : ascii) :
  (c = "," \/ c = "}")%char -> Ascii.eqb (pretty_N_char x) c = false.
Proof.
  intros [-> | ->]; unfold pretty_N_char;
    (destruct x as [| p]; [reflexivity |]);
    do 5 (try (destruct p as [p | p |]; try reflexivity)).
Qed.

Lemma pretty_N_go_no_separator (c : ascii) (x : N) : forall s,
  (c = "," \/ c = "}")%char ->
  occurs c s = false -> occurs c (pretty_N_go x s) = false.
Proof.
  induction (N.lt_wf_0 x) as [x _ IH]. intros s Hc Hs.
  destruct (decide (x = 0)%N) as [-> | Hx].
  - rewrite pretty_N_go_0. assumption.
  - rewrite pretty_N_go_step by lia.
    apply IH; [apply N.div_lt; lia | assumption |].
    cbn [occurs]. rewrite pretty_N_char_digit by assumption. assumption.
Qed.

Lemma pretty_Z_no_separator (c : ascii) (z : Z) :
  (c = "," \/ c = "}")%char -> occurs c (pretty z) = false.
Proof.
  intros Hc.
  assert (HN : forall n : N, occurs c (pretty n) = false).
  { intros n. unfold pretty, pretty_N.
    destruct (decide (n = 0)%N).
    - destruct Hc as [-> | ->]; reflexivity.
    - apply pretty_N_go_no_separator; [assumption | reflexivity]. }
  destruct z as [| p | p].
  - destruct Hc as [-> | ->]; reflexivity.
  - apply (HN (N.pos p)).
  - change (pretty (Z.neg p)) with (String "-" (pretty (N.pos p))).
    cbn [occurs]. rewrite (HN (N.pos p)).
    destruct Hc as [-> | ->]; reflexivity.
Qed.

(** X22. [__str__] tells Send nodes apart exactly as [==] does: two Send
    nodes print the same string if and only if they are equal. *)
Theorem MPISend_str_injective (rank1 tag1 rank2 tag2 : Z) :
  MPISend_str (MPISend_init rank1 tag1) = MPISend_str (MPISend_init rank2 tag2)
  <-> op_eq (Op_MPISend (MPISend_init rank1 tag1))
            (Op_MPISend (MPISend_init rank2 tag2)) = true.
Proof.
  rewrite MPISend_eq_same, bool_decide_eq_true. cbn [MPISend_init send_info].
  split.
  - change (MPISend_str (MPISend_init rank1 tag1))
      with (Ok ("MPISend{dest: " +:+
                (pretty rank1 +:+
                 String "," (" tag: " +:+ (pretty tag1 +:+ String "}" "")))));
    change (MPISend_str (MPISend_init rank2 tag2))
      with (Ok ("MPISend{dest: " +:+
                (pretty rank2 +:+
                 String "," (" tag: " +:+ (pretty tag2 +:+ String "}" ""))))).
    intros [= H%String.app_inj].
    apply split_at_first in H as [Hr H];
      [| apply pretty_Z_no_separator; auto ..].
    apply String.app_inj in H.
    apply split_at_first in H as [Ht _];
      [| apply pretty_Z_no_separator; auto ..].
    apply (inj pretty) in Hr, Ht. congruence.
  - intros [= -> ->]. reflexivity.
Qed.

Lemma MPISend_str_injective_witness :
  op_eq (Op_MPISend (MPISend_init 1 7)) (Op_MPISend (MPISend_init 1 7)) = true.
Proof.
  apply (proj1 (MPISend_str_injective 1 7 1 7)). reflexivity.
Defined.
